(** * Connection supervisor of the Pulse SSO NetworkManager VPN plugin

    A shallow embedding of [PulseSSOPlugin] from
    [vpn-service/nm-pulse-sso-service.py].  The plugin object, the GLib main
    loop it registers sources with and the effects it performs (D-Bus
    signals, subprocess launches) are threaded through one [world] record.
    Every method of the class is a computation in a small state-and-exception
    monad; what the operating system, the browser helper and the tunnel
    binary answer is supplied by an [env] value attached to each event.

    What the state machine keeps abstract: the contents of the configuration
    file (only the boolean [is_dtls_enabled()] returns), the [loginctl]
    session discovery and the [systemd-run] invocation of the auth dialog
    (only their joint outcome, [agent_result]), the payload of configuration
    dictionaries (string-valued maps), and time (a pending timer may fire at
    any later dispatch).  The configuration reader and the session loop are
    modelled on their own, after the scenarios. *)

From Stdlib Require Import ZArith List String Bool Lia.
From stdpp Require Import base option list gmap strings pretty.

Local Open Scope string_scope.
Local Open Scope Z_scope.
Local Open Scope list_scope.

(** ** Data model *)

(** [class ServiceState(IntEnum)] *)
Inductive ServiceState : Type :=
  | Unknown | Init | Shutdown | Starting | Started | Stopping | Stopped.

Definition ServiceState_value (s : ServiceState) : Z :=
  match s with
  | Unknown => 0 | Init => 1 | Shutdown => 2 | Starting => 3
  | Started => 4 | Stopping => 5 | Stopped => 6
  end.

(** One NetworkManager setting of a connection description ([a{sv}]); only
    the two string dictionaries the plugin reads are kept, the other keys of
    a setting are not represented. *)
Record setting : Type := Setting {
  data : option (gmap string string);
  secrets : option (gmap string string);
}.

(** A connection description ([a{sa{sv}}]) after [convert_dbus_types]. *)
Abbreviation connection := (gmap string setting).

(** Callbacks the plugin hands to [GLib.timeout_add]. *)
Inductive callback : Type :=
  | DoRestart | LaunchDirectAuth | OnSecretsTimeout.

(** A source attached to the GLib main context. *)
Inductive source : Type :=
  | Timeout (delay_ms : Z) (cb : callback)
  | ChildWatch (pid : Z).

Inductive exn : Type :=
  | LaunchFailedError (msg : string)
  | TimeoutExpired
  | Exception (msg : string).

(** Effects visible outside the plugin, newest first in [trace]. *)
Inductive action : Type :=
  | SigStateChanged (s : ServiceState)
  | SigConfig (c : gmap string string)
  | SigIp4Config (c : gmap string string)
  | SigIp6Config (c : gmap string string)
  | SigFailure (reason : string)
  | ActPopen (cmd : list string) (pid : Z)
  | ActTerminate (pid : Z)
  | ActKill (pid : Z)
  | ActClearCachedSecrets
  | ActLoopQuit
  | ErrorReply (e : exn).

Record world : Type := World {
  proc : option Z;
  config : gmap string string;
  ip4config : gmap string string;
  gateway : option string;
  cookie : option string;
  servercert : option string;
  pending_connection : option connection;
  _disconnect_requested : bool;
  _child_watch_id : option nat;
  _restart_timeout_id : option nat;
  _auth_failure_count : Z;
  _reconnection_pending : bool;
  _reconnection_retry_count : Z;
  _last_failed_cookie : option string;
  _direct_auth_timeout_id : option nat;
  _secrets_timeout_id : option nat;
  helper_script : string;
  sources : list (nat * source);
  next_source_id : nat;
  trace : list action;
  loop_running : bool;
}.

Definition set_proc (v : option Z) (w : world) : world :=
  {| proc := v; config := config w; ip4config := ip4config w; gateway := gateway w; cookie
  := cookie w; servercert := servercert w; pending_connection := pending_connection w;
  _disconnect_requested := _disconnect_requested w; _child_watch_id := _child_watch_id w;
  _restart_timeout_id := _restart_timeout_id w; _auth_failure_count := _auth_failure_count
  w; _reconnection_pending := _reconnection_pending w; _reconnection_retry_count :=
  _reconnection_retry_count w; _last_failed_cookie := _last_failed_cookie w;
  _direct_auth_timeout_id := _direct_auth_timeout_id w; _secrets_timeout_id :=
  _secrets_timeout_id w; helper_script := helper_script w; sources := sources w;
  next_source_id := next_source_id w; trace := trace w; loop_running := loop_running w |}.

Definition set_config (v : gmap string string) (w : world) : world :=
  {| proc := proc w; config := v; ip4config := ip4config w; gateway := gateway w; cookie
  := cookie w; servercert := servercert w; pending_connection := pending_connection w;
  _disconnect_requested := _disconnect_requested w; _child_watch_id := _child_watch_id w;
  _restart_timeout_id := _restart_timeout_id w; _auth_failure_count := _auth_failure_count
  w; _reconnection_pending := _reconnection_pending w; _reconnection_retry_count :=
  _reconnection_retry_count w; _last_failed_cookie := _last_failed_cookie w;
  _direct_auth_timeout_id := _direct_auth_timeout_id w; _secrets_timeout_id :=
  _secrets_timeout_id w; helper_script := helper_script w; sources := sources w;
  next_source_id := next_source_id w; trace := trace w; loop_running := loop_running w |}.

Definition set_ip4config (v : gmap string string) (w : world) : world :=
  {| proc := proc w; config := config w; ip4config := v; gateway := gateway w; cookie :=
  cookie w; servercert := servercert w; pending_connection := pending_connection w;
  _disconnect_requested := _disconnect_requested w; _child_watch_id := _child_watch_id w;
  _restart_timeout_id := _restart_timeout_id w; _auth_failure_count := _auth_failure_count
  w; _reconnection_pending := _reconnection_pending w; _reconnection_retry_count :=
  _reconnection_retry_count w; _last_failed_cookie := _last_failed_cookie w;
  _direct_auth_timeout_id := _direct_auth_timeout_id w; _secrets_timeout_id :=
  _secrets_timeout_id w; helper_script := helper_script w; sources := sources w;
  next_source_id := next_source_id w; trace := trace w; loop_running := loop_running w |}.

Definition set_gateway (v : option string) (w : world) : world :=
  {| proc := proc w; config := config w; ip4config := ip4config w; gateway := v; cookie :=
  cookie w; servercert := servercert w; pending_connection := pending_connection w;
  _disconnect_requested := _disconnect_requested w; _child_watch_id := _child_watch_id w;
  _restart_timeout_id := _restart_timeout_id w; _auth_failure_count := _auth_failure_count
  w; _reconnection_pending := _reconnection_pending w; _reconnection_retry_count :=
  _reconnection_retry_count w; _last_failed_cookie := _last_failed_cookie w;
  _direct_auth_timeout_id := _direct_auth_timeout_id w; _secrets_timeout_id :=
  _secrets_timeout_id w; helper_script := helper_script w; sources := sources w;
  next_source_id := next_source_id w; trace := trace w; loop_running := loop_running w |}.

Definition set_cookie (v : option string) (w : world) : world :=
  {| proc := proc w; config := config w; ip4config := ip4config w; gateway := gateway w;
  cookie := v; servercert := servercert w; pending_connection := pending_connection w;
  _disconnect_requested := _disconnect_requested w; _child_watch_id := _child_watch_id w;
  _restart_timeout_id := _restart_timeout_id w; _auth_failure_count := _auth_failure_count
  w; _reconnection_pending := _reconnection_pending w; _reconnection_retry_count :=
  _reconnection_retry_count w; _last_failed_cookie := _last_failed_cookie w;
  _direct_auth_timeout_id := _direct_auth_timeout_id w; _secrets_timeout_id :=
  _secrets_timeout_id w; helper_script := helper_script w; sources := sources w;
  next_source_id := next_source_id w; trace := trace w; loop_running := loop_running w |}.

Definition set_servercert (v : option string) (w : world) : world :=
  {| proc := proc w; config := config w; ip4config := ip4config w; gateway := gateway w;
  cookie := cookie w; servercert := v; pending_connection := pending_connection w;
  _disconnect_requested := _disconnect_requested w; _child_watch_id := _child_watch_id w;
  _restart_timeout_id := _restart_timeout_id w; _auth_failure_count := _auth_failure_count
  w; _reconnection_pending := _reconnection_pending w; _reconnection_retry_count :=
  _reconnection_retry_count w; _last_failed_cookie := _last_failed_cookie w;
  _direct_auth_timeout_id := _direct_auth_timeout_id w; _secrets_timeout_id :=
  _secrets_timeout_id w; helper_script := helper_script w; sources := sources w;
  next_source_id := next_source_id w; trace := trace w; loop_running := loop_running w |}.

Definition set_pending_connection (v : option connection) (w : world) : world :=
  {| proc := proc w; config := config w; ip4config := ip4config w; gateway := gateway w;
  cookie := cookie w; servercert := servercert w; pending_connection := v;
  _disconnect_requested := _disconnect_requested w; _child_watch_id := _child_watch_id w;
  _restart_timeout_id := _restart_timeout_id w; _auth_failure_count := _auth_failure_count
  w; _reconnection_pending := _reconnection_pending w; _reconnection_retry_count :=
  _reconnection_retry_count w; _last_failed_cookie := _last_failed_cookie w;
  _direct_auth_timeout_id := _direct_auth_timeout_id w; _secrets_timeout_id :=
  _secrets_timeout_id w; helper_script := helper_script w; sources := sources w;
  next_source_id := next_source_id w; trace := trace w; loop_running := loop_running w |}.

Definition set_disconnect_requested (v : bool) (w : world) : world :=
  {| proc := proc w; config := config w; ip4config := ip4config w; gateway := gateway w;
  cookie := cookie w; servercert := servercert w; pending_connection := pending_connection
  w; _disconnect_requested := v; _child_watch_id := _child_watch_id w; _restart_timeout_id
  := _restart_timeout_id w; _auth_failure_count := _auth_failure_count w;
  _reconnection_pending := _reconnection_pending w; _reconnection_retry_count :=
  _reconnection_retry_count w; _last_failed_cookie := _last_failed_cookie w;
  _direct_auth_timeout_id := _direct_auth_timeout_id w; _secrets_timeout_id :=
  _secrets_timeout_id w; helper_script := helper_script w; sources := sources w;
  next_source_id := next_source_id w; trace := trace w; loop_running := loop_running w |}.

Definition set_child_watch_id (v : option nat) (w : world) : world :=
  {| proc := proc w; config := config w; ip4config := ip4config w; gateway := gateway w;
  cookie := cookie w; servercert := servercert w; pending_connection := pending_connection
  w; _disconnect_requested := _disconnect_requested w; _child_watch_id := v;
  _restart_timeout_id := _restart_timeout_id w; _auth_failure_count := _auth_failure_count
  w; _reconnection_pending := _reconnection_pending w; _reconnection_retry_count :=
  _reconnection_retry_count w; _last_failed_cookie := _last_failed_cookie w;
  _direct_auth_timeout_id := _direct_auth_timeout_id w; _secrets_timeout_id :=
  _secrets_timeout_id w; helper_script := helper_script w; sources := sources w;
  next_source_id := next_source_id w; trace := trace w; loop_running := loop_running w |}.

Definition set_restart_timeout_id (v : option nat) (w : world) : world :=
  {| proc := proc w; config := config w; ip4config := ip4config w; gateway := gateway w;
  cookie := cookie w; servercert := servercert w; pending_connection := pending_connection
  w; _disconnect_requested := _disconnect_requested w; _child_watch_id := _child_watch_id
  w; _restart_timeout_id := v; _auth_failure_count := _auth_failure_count w;
  _reconnection_pending := _reconnection_pending w; _reconnection_retry_count :=
  _reconnection_retry_count w; _last_failed_cookie := _last_failed_cookie w;
  _direct_auth_timeout_id := _direct_auth_timeout_id w; _secrets_timeout_id :=
  _secrets_timeout_id w; helper_script := helper_script w; sources := sources w;
  next_source_id := next_source_id w; trace := trace w; loop_running := loop_running w |}.

Definition set_auth_failure_count (v : Z) (w : world) : world :=
  {| proc := proc w; config := config w; ip4config := ip4config w; gateway := gateway w;
  cookie := cookie w; servercert := servercert w; pending_connection := pending_connection
  w; _disconnect_requested := _disconnect_requested w; _child_watch_id := _child_watch_id
  w; _restart_timeout_id := _restart_timeout_id w; _auth_failure_count := v;
  _reconnection_pending := _reconnection_pending w; _reconnection_retry_count :=
  _reconnection_retry_count w; _last_failed_cookie := _last_failed_cookie w;
  _direct_auth_timeout_id := _direct_auth_timeout_id w; _secrets_timeout_id :=
  _secrets_timeout_id w; helper_script := helper_script w; sources := sources w;
  next_source_id := next_source_id w; trace := trace w; loop_running := loop_running w |}.

Definition set_reconnection_pending (v : bool) (w : world) : world :=
  {| proc := proc w; config := config w; ip4config := ip4config w; gateway := gateway w;
  cookie := cookie w; servercert := servercert w; pending_connection := pending_connection
  w; _disconnect_requested := _disconnect_requested w; _child_watch_id := _child_watch_id
  w; _restart_timeout_id := _restart_timeout_id w; _auth_failure_count :=
  _auth_failure_count w; _reconnection_pending := v; _reconnection_retry_count :=
  _reconnection_retry_count w; _last_failed_cookie := _last_failed_cookie w;
  _direct_auth_timeout_id := _direct_auth_timeout_id w; _secrets_timeout_id :=
  _secrets_timeout_id w; helper_script := helper_script w; sources := sources w;
  next_source_id := next_source_id w; trace := trace w; loop_running := loop_running w |}.

Definition set_reconnection_retry_count (v : Z) (w : world) : world :=
  {| proc := proc w; config := config w; ip4config := ip4config w; gateway := gateway w;
  cookie := cookie w; servercert := servercert w; pending_connection := pending_connection
  w; _disconnect_requested := _disconnect_requested w; _child_watch_id := _child_watch_id
  w; _restart_timeout_id := _restart_timeout_id w; _auth_failure_count :=
  _auth_failure_count w; _reconnection_pending := _reconnection_pending w;
  _reconnection_retry_count := v; _last_failed_cookie := _last_failed_cookie w;
  _direct_auth_timeout_id := _direct_auth_timeout_id w; _secrets_timeout_id :=
  _secrets_timeout_id w; helper_script := helper_script w; sources := sources w;
  next_source_id := next_source_id w; trace := trace w; loop_running := loop_running w |}.

Definition set_last_failed_cookie (v : option string) (w : world) : world :=
  {| proc := proc w; config := config w; ip4config := ip4config w; gateway := gateway w;
  cookie := cookie w; servercert := servercert w; pending_connection := pending_connection
  w; _disconnect_requested := _disconnect_requested w; _child_watch_id := _child_watch_id
  w; _restart_timeout_id := _restart_timeout_id w; _auth_failure_count :=
  _auth_failure_count w; _reconnection_pending := _reconnection_pending w;
  _reconnection_retry_count := _reconnection_retry_count w; _last_failed_cookie := v;
  _direct_auth_timeout_id := _direct_auth_timeout_id w; _secrets_timeout_id :=
  _secrets_timeout_id w; helper_script := helper_script w; sources := sources w;
  next_source_id := next_source_id w; trace := trace w; loop_running := loop_running w |}.

Definition set_direct_auth_timeout_id (v : option nat) (w : world) : world :=
  {| proc := proc w; config := config w; ip4config := ip4config w; gateway := gateway w;
  cookie := cookie w; servercert := servercert w; pending_connection := pending_connection
  w; _disconnect_requested := _disconnect_requested w; _child_watch_id := _child_watch_id
  w; _restart_timeout_id := _restart_timeout_id w; _auth_failure_count :=
  _auth_failure_count w; _reconnection_pending := _reconnection_pending w;
  _reconnection_retry_count := _reconnection_retry_count w; _last_failed_cookie :=
  _last_failed_cookie w; _direct_auth_timeout_id := v; _secrets_timeout_id :=
  _secrets_timeout_id w; helper_script := helper_script w; sources := sources w;
  next_source_id := next_source_id w; trace := trace w; loop_running := loop_running w |}.

Definition set_secrets_timeout_id (v : option nat) (w : world) : world :=
  {| proc := proc w; config := config w; ip4config := ip4config w; gateway := gateway w;
  cookie := cookie w; servercert := servercert w; pending_connection := pending_connection
  w; _disconnect_requested := _disconnect_requested w; _child_watch_id := _child_watch_id
  w; _restart_timeout_id := _restart_timeout_id w; _auth_failure_count :=
  _auth_failure_count w; _reconnection_pending := _reconnection_pending w;
  _reconnection_retry_count := _reconnection_retry_count w; _last_failed_cookie :=
  _last_failed_cookie w; _direct_auth_timeout_id := _direct_auth_timeout_id w;
  _secrets_timeout_id := v; helper_script := helper_script w; sources := sources w;
  next_source_id := next_source_id w; trace := trace w; loop_running := loop_running w |}.

Definition set_sources (v : list (nat * source)) (w : world) : world :=
  {| proc := proc w; config := config w; ip4config := ip4config w; gateway := gateway w;
  cookie := cookie w; servercert := servercert w; pending_connection := pending_connection
  w; _disconnect_requested := _disconnect_requested w; _child_watch_id := _child_watch_id
  w; _restart_timeout_id := _restart_timeout_id w; _auth_failure_count :=
  _auth_failure_count w; _reconnection_pending := _reconnection_pending w;
  _reconnection_retry_count := _reconnection_retry_count w; _last_failed_cookie :=
  _last_failed_cookie w; _direct_auth_timeout_id := _direct_auth_timeout_id w;
  _secrets_timeout_id := _secrets_timeout_id w; helper_script := helper_script w; sources
  := v; next_source_id := next_source_id w; trace := trace w; loop_running := loop_running
  w |}.

Definition set_next_source_id (v : nat) (w : world) : world :=
  {| proc := proc w; config := config w; ip4config := ip4config w; gateway := gateway w;
  cookie := cookie w; servercert := servercert w; pending_connection := pending_connection
  w; _disconnect_requested := _disconnect_requested w; _child_watch_id := _child_watch_id
  w; _restart_timeout_id := _restart_timeout_id w; _auth_failure_count :=
  _auth_failure_count w; _reconnection_pending := _reconnection_pending w;
  _reconnection_retry_count := _reconnection_retry_count w; _last_failed_cookie :=
  _last_failed_cookie w; _direct_auth_timeout_id := _direct_auth_timeout_id w;
  _secrets_timeout_id := _secrets_timeout_id w; helper_script := helper_script w; sources
  := sources w; next_source_id := v; trace := trace w; loop_running := loop_running w |}.

Definition set_trace (v : list action) (w : world) : world :=
  {| proc := proc w; config := config w; ip4config := ip4config w; gateway := gateway w;
  cookie := cookie w; servercert := servercert w; pending_connection := pending_connection
  w; _disconnect_requested := _disconnect_requested w; _child_watch_id := _child_watch_id
  w; _restart_timeout_id := _restart_timeout_id w; _auth_failure_count :=
  _auth_failure_count w; _reconnection_pending := _reconnection_pending w;
  _reconnection_retry_count := _reconnection_retry_count w; _last_failed_cookie :=
  _last_failed_cookie w; _direct_auth_timeout_id := _direct_auth_timeout_id w;
  _secrets_timeout_id := _secrets_timeout_id w; helper_script := helper_script w; sources
  := sources w; next_source_id := next_source_id w; trace := v; loop_running :=
  loop_running w |}.

Definition set_loop_running (v : bool) (w : world) : world :=
  {| proc := proc w; config := config w; ip4config := ip4config w; gateway := gateway w;
  cookie := cookie w; servercert := servercert w; pending_connection := pending_connection
  w; _disconnect_requested := _disconnect_requested w; _child_watch_id := _child_watch_id
  w; _restart_timeout_id := _restart_timeout_id w; _auth_failure_count :=
  _auth_failure_count w; _reconnection_pending := _reconnection_pending w;
  _reconnection_retry_count := _reconnection_retry_count w; _last_failed_cookie :=
  _last_failed_cookie w; _direct_auth_timeout_id := _direct_auth_timeout_id w;
  _secrets_timeout_id := _secrets_timeout_id w; helper_script := helper_script w; sources
  := sources w; next_source_id := next_source_id w; trace := trace w; loop_running := v |}.

(** The plugin as [__init__] leaves it; GLib hands out source ids from 1. *)
Definition init (helper : string) : world :=
  {| proc := None; config := ∅; ip4config := ∅;
     gateway := None; cookie := None; servercert := None;
     pending_connection := None; _disconnect_requested := false;
     _child_watch_id := None; _restart_timeout_id := None;
     _auth_failure_count := 0; _reconnection_pending := false;
     _reconnection_retry_count := 0; _last_failed_cookie := None;
     _direct_auth_timeout_id := None; _secrets_timeout_id := None;
     helper_script := helper;
     sources := []; next_source_id := 1%nat; trace := [];
     loop_running := true |}.

(** Attributes assigned once in [__init__] and never again. *)
Definition _max_reconnection_retries : Z := 10.
Definition _reconnection_retry_interval : Z := 3000.
Definition _secrets_timeout_ms : Z := 5000.

(** ** What the surroundings answer *)

(** Result of [Popen(cmd, ...)] for the tunnel binary. *)
Inductive spawn_result : Type :=
  | Spawned (pid : Z)
  | SpawnError (msg : string).

(** What happens between "find the graphical session" and
    [proc.communicate(...)] returning in [_launch_direct_auth]. [AgentExit]
    carries the return code and [stdout.decode().strip().split('\n')]. *)
Inductive agent_result : Type :=
  | NoGraphicalSession
  | AgentTimeout
  | AgentException (msg : string)
  | AgentExit (returncode : Z) (lines : list string).

Record env : Type := Env {
  dtls_enabled : bool;         (* is_dtls_enabled() *)
  popen : spawn_result;        (* Popen of openconnect *)
  agent : agent_result;        (* the browser authentication agent *)
  graceful : bool;             (* proc.wait(timeout=5) returned in time *)
}.

(** ** State and exception monad *)

Inductive outcome (A : Type) : Type :=
  | Done (a : A)
  | Raised (e : exn).
Arguments Done {A} a.
Arguments Raised {A} e.

Definition M (A : Type) : Type := world → outcome A * world.

#[global] Instance M_ret : MRet M := λ A a w, (Done a, w).
#[global] Instance M_bind : MBind M := λ A B f m w,
  match m w with
  | (Done a, w') => f a w'
  | (Raised e, w') => (Raised e, w')
  end.

Definition raise {A : Type} (e : exn) : M A := λ w, (Raised e, w).
Definition get : M world := λ w, (Done w, w).
Definition modify (f : world → world) : M unit := λ w, (Done tt, f w).

(** [try: body except ... as e: handler e] *)
Definition try_except {A : Type} (body : M A) (handler : exn → M A) : M A :=
  λ w, match body w with
       | (Done a, w') => (Done a, w')
       | (Raised e, w') => handler e w'
       end.

Definition exec {A : Type} (m : M A) (w : world) : world := (m w).2.

(** Python [str(e)] for the exceptions that occur. *)
Definition exn_str (e : exn) : string :=
  match e with
  | LaunchFailedError msg => msg
  | TimeoutExpired => "Command timed out"
  | Exception msg => msg
  end.

(** ** Python helpers *)

(** Truth value of a [str]. *)
Definition truthy (s : string) : bool := negb (String.eqb s "").

(** Truth value of an [Optional[str]]. *)
Definition truthy_opt (o : option string) : bool :=
  match o with
  | Some s => truthy s
  | None => false
  end.

(** [connection.get('vpn', {}).get('data', {})] *)
Definition vpn_data (c : connection) : gmap string string :=
  match c !! "vpn" with
  | Some s => default ∅ (data s)
  | None => ∅
  end.

(** [connection.get('vpn', {}).get('secrets', {})] *)
Definition vpn_secrets (c : connection) : gmap string string :=
  match c !! "vpn" with
  | Some s => default ∅ (secrets s)
  | None => ∅
  end.

(** [s == o] for a [str] against an [Optional[str]]. *)
Definition eq_opt (s : string) (o : option string) : bool :=
  match o with
  | Some s' => String.eqb s s'
  | None => false
  end.

(** [d.get(k, '')] *)
Definition get_str (d : gmap string string) (k : string) : string :=
  default "" (d !! k).

(** Truth value of an [Optional[dict]]: [None] and [{}] are false. *)
Definition truthy_conn (o : option connection) : bool :=
  match o with
  | Some c => match map_to_list c with [] => false | _ => true end
  | None => false
  end.

(** "Ensure gateway has https:// prefix". *)
Definition normalize_gateway (gateway : string) : string :=
  if negb (String.prefix "http://" gateway) && negb (String.prefix "https://" gateway)
  then "https://" +:+ gateway
  else gateway.

(** Wait-status decoding of [os.WIFEXITED] and friends (Linux encoding). *)
Definition WIFEXITED (status : Z) : bool := Z.land status 127 =? 0.
Definition WEXITSTATUS (status : Z) : Z := Z.land (Z.shiftr status 8) 255.
Definition WTERMSIG (status : Z) : Z := Z.land status 127.
Definition WIFSIGNALED (status : Z) : bool :=
  negb (Z.land status 127 =? 0) && negb (Z.land status 127 =? 127).

(** "Convert wait status to exit code" in [_on_openconnect_exit]. *)
Definition exit_code_of (status : Z) : Z :=
  if WIFEXITED status then WEXITSTATUS status
  else if WIFSIGNALED status then - WTERMSIG status
  else status.

(** ** Effects *)

Definition emit (a : action) : M unit :=
  modify (λ w, set_trace (a :: trace w) w).

Definition StateChanged (s : ServiceState) : M unit := emit (SigStateChanged s).
Definition Failure (reason : string) : M unit := emit (SigFailure reason).

(** [GLib.timeout_add(delay, cb)]: attach a fresh source, return its id. *)
Definition timeout_add (delay_ms : Z) (cb : callback) : M nat :=
  w ← get;
  let id := next_source_id w in
  modify (λ w, set_next_source_id (S id)
                 (set_sources (sources w ++ [(id, Timeout delay_ms cb)]) w));;
  mret id.

(** [GLib.child_watch_add(pid, self._on_openconnect_exit)] *)
Definition child_watch_add (pid : Z) : M nat :=
  w ← get;
  let id := next_source_id w in
  modify (λ w, set_next_source_id (S id)
                 (set_sources (sources w ++ [(id, ChildWatch pid)]) w));;
  mret id.

Definition drop_source (id : nat) (l : list (nat * source)) : list (nat * source) :=
  List.filter (λ s, negb (Nat.eqb s.1 id)) l.

(** [GLib.source_remove(id)] *)
Definition source_remove (id : nat) : M unit :=
  modify (λ w, set_sources (drop_source id (sources w)) w).

(** [Popen(cmd, ...)] of the tunnel binary. *)
Definition Popen (e : env) (cmd : list string) : M Z :=
  match popen e with
  | Spawned pid => emit (ActPopen cmd pid);; mret pid
  | SpawnError msg => raise (Exception msg)
  end.

(** ** Methods of [PulseSSOPlugin] *)

(** [_start_openconnect]: build the command line, launch it, watch the
    child.  A [None] cookie or gateway in [cmd] makes [Popen] raise. *)
Definition openconnect_cmd (dtls : bool) (helper gateway cookie : string)
  : list string :=
  (["openconnect"]
   ++ (if negb dtls then ["--no-dtls"] else [])
   ++ ["-C"; cookie; "--protocol=pulse"; "--script=" +:+ helper; gateway])%list.

Definition _start_openconnect (e : env) : M unit :=
  w ← get;
  match cookie w, gateway w with
  | Some c, Some g =>
      let cmd := openconnect_cmd (dtls_enabled e) (helper_script w) g c in
      pid ← Popen e cmd;
      modify (set_proc (Some pid));;
      id ← child_watch_add pid;
      modify (set_child_watch_id (Some id))
  | _, _ => raise (Exception "expected str, bytes or os.PathLike object, not NoneType")
  end.

(** [_schedule_direct_auth(delay_ms)] *)
Definition _schedule_direct_auth (delay_ms : Z) : M unit :=
  let delay_ms := if delay_ms <? 0 then 0 else delay_ms in
  w ← get;
  match _direct_auth_timeout_id w with
  | Some id => source_remove id
  | None => mret tt
  end;;
  id ← timeout_add delay_ms LaunchDirectAuth;
  modify (set_direct_auth_timeout_id (Some id)).

(** [_cancel_direct_auth_timer] *)
Definition _cancel_direct_auth_timer : M unit :=
  w ← get;
  match _direct_auth_timeout_id w with
  | Some id => source_remove id;; modify (set_direct_auth_timeout_id None)
  | None => mret tt
  end.

(** [_cancel_secrets_timeout] *)
Definition _cancel_secrets_timeout : M unit :=
  w ← get;
  match _secrets_timeout_id w with
  | Some id => source_remove id;; modify (set_secrets_timeout_id None)
  | None => mret tt
  end.

(** [_schedule_secrets_timeout] *)
Definition _schedule_secrets_timeout : M unit :=
  _cancel_secrets_timeout;;
  id ← timeout_add _secrets_timeout_ms OnSecretsTimeout;
  modify (set_secrets_timeout_id (Some id)).

(** The statement of [_on_openconnect_exit] that arms the restart backoff:
    [self._restart_timeout_id = GLib.timeout_add(2000, self._do_restart)]. *)
Definition schedule_restart : M unit :=
  id ← timeout_add 2000 DoRestart;
  modify (set_restart_timeout_id (Some id)).

(** [_schedule_auth_retry(reason)] *)
Definition _schedule_auth_retry (reason : string) : M unit :=
  w ← get;
  if _max_reconnection_retries <=? _reconnection_retry_count w then
    modify (set_reconnection_pending false);;
    StateChanged Stopped;;
    Failure ("VPN reconnection failed after " +:+ pretty _max_reconnection_retries
             +:+ " attempts: " +:+ reason)
  else
    _schedule_direct_auth _reconnection_retry_interval.

(** [_ensure_direct_auth(reason, delay_ms)] *)
Definition _ensure_direct_auth (reason : string) (delay_ms : Z) : M unit :=
  modify (set_reconnection_pending true);;
  StateChanged Starting;;
  _schedule_direct_auth delay_ms.

(** [_on_openconnect_exit(pid, status)] *)
Definition _on_openconnect_exit (pid status : Z) : M unit :=
  w ← get;
  match proc w with
  | None => mret tt
  | Some p =>
    if negb (p =? pid) then mret tt else
    let exit_code := exit_code_of status in
    modify (set_proc None);;
    modify (set_child_watch_id None);;
    if _disconnect_requested w then mret tt else
    if exit_code =? 2 then
      let failed_cookie := cookie w in
      modify (set_cookie None);;
      (if truthy_opt failed_cookie
       then modify (set_last_failed_cookie failed_cookie) else mret tt);;
      modify (λ w, set_auth_failure_count (_auth_failure_count w + 1) w);;
      w ← get;
      if 3 <? _auth_failure_count w then
        StateChanged Stopped;;
        Failure "Authentication failed repeatedly - please reconnect manually"
      else if truthy_opt (gateway w) && negb (_disconnect_requested w) then
        modify (set_reconnection_pending true);;
        StateChanged Starting;;
        _schedule_direct_auth 1000
      else
        StateChanged Stopped;;
        Failure "Authentication failed - cookie expired"
    else if truthy_opt (cookie w) && truthy_opt (gateway w) then
      StateChanged Starting;;
      schedule_restart
    else
      StateChanged Stopped
  end.

(** [_do_restart], the callback of the restart backoff. *)
Definition _do_restart (e : env) : M bool :=
  modify (set_restart_timeout_id None);;
  w ← get;
  if _disconnect_requested w then mret false else
  if negb (truthy_opt (cookie w)) || negb (truthy_opt (gateway w)) then
    StateChanged Stopped;; mret false
  else
    try_except (_start_openconnect e) (λ _, StateChanged Stopped);;
    mret false.

(** The [while i < len(lines)] loop of [_launch_direct_auth] that picks
    the [cookie] and [gwcert] values out of the auth-dialog output. *)
Fixpoint parse_auth_output (lines : list string) (cookie gwcert : option string)
  : option string * option string :=
  match lines with
  | [] => (cookie, gwcert)
  | k :: rest =>
      match rest with
      | v :: rest' =>
          if String.eqb k "cookie" then parse_auth_output rest' (Some v) gwcert
          else if String.eqb k "gwcert" then parse_auth_output rest' cookie (Some v)
          else parse_auth_output rest cookie gwcert
      | [] => parse_auth_output rest cookie gwcert
      end
  end.

(** [_launch_direct_auth], the callback of the direct-auth timer. *)
Definition _launch_direct_auth (e : env) : M bool :=
  modify (set_direct_auth_timeout_id None);;
  w ← get;
  if negb (_reconnection_pending w) then mret false else
  modify (λ w, set_reconnection_retry_count (_reconnection_retry_count w + 1) w);;
  w ← get;
  if _max_reconnection_retries <? _reconnection_retry_count w then
    modify (set_reconnection_pending false);;
    StateChanged Stopped;;
    Failure "VPN reconnection failed - please reconnect manually";;
    mret false
  else
    try_except
      (match agent e with
       | AgentTimeout => raise TimeoutExpired
       | AgentException msg => raise (Exception msg)
       | NoGraphicalSession =>
           _schedule_direct_auth _reconnection_retry_interval;; mret false
       | AgentExit returncode lines =>
           if negb (returncode =? 0) then
             _schedule_direct_auth _reconnection_retry_interval;; mret false
           else
             let '(cookie, gwcert) := parse_auth_output lines None None in
             if negb (truthy_opt cookie) then
               _schedule_auth_retry "No cookie in auth-dialog output";; mret false
             else
               modify (set_cookie cookie);;
               modify (set_servercert gwcert);;
               modify (set_last_failed_cookie None);;
               StateChanged Starting;;
               try_except
                 (_start_openconnect e;;
                  modify (set_reconnection_pending false);;
                  modify (set_reconnection_retry_count 0);;
                  modify (set_auth_failure_count 0);;
                  _cancel_direct_auth_timer;;
                  mret false)
                 (λ _, _schedule_auth_retry "Failed to start openconnect";;
                       mret false)
       end)
      (λ ex, match ex with
             | TimeoutExpired => _schedule_auth_retry "Auth-dialog timed out"
             | _ => _schedule_auth_retry ("Direct auth failed: " +:+ exn_str ex)
             end;;
             mret false).

(** [_on_secrets_timeout], the callback of the secrets-wait timer. *)
Definition _on_secrets_timeout : M bool :=
  modify (set_secrets_timeout_id None);;
  w ← get;
  match pending_connection w with
  | None => mret false
  | Some pc =>
    match proc w with
    | Some _ => mret false
    | None =>
      let gateway := get_str (vpn_data pc) "gateway" in
      if negb (truthy gateway) then
        StateChanged Stopped;;
        Failure "No VPN gateway configured";;
        modify (set_pending_connection None);;
        mret false
      else
        let gateway := normalize_gateway gateway in
        modify (set_gateway (Some gateway));;
        modify (set_reconnection_pending true);;
        modify (set_reconnection_retry_count 0);;
        _schedule_direct_auth 0;;
        mret false
    end
  end.

(** [_do_connect(connection)] *)
Definition _do_connect (e : env) (connection : connection) : M unit :=
  try_except
    (let gateway := get_str (vpn_data connection) "gateway" in
     let cookie := get_str (vpn_secrets connection) "cookie" in
     let servercert := get_str (vpn_secrets connection) "gwcert" in
     if negb (truthy gateway) then
       raise (LaunchFailedError "No gateway specified in VPN configuration")
     else if negb (truthy cookie) then
       raise (LaunchFailedError "No cookie provided - auth-dialog may have failed")
     else
       let gateway := normalize_gateway gateway in
       w ← get;
       if truthy_opt (_last_failed_cookie w)
          && eq_opt cookie (_last_failed_cookie w) then
         _ensure_direct_auth "stale cookie from NetworkManager" 0
       else
         (if truthy_opt (_last_failed_cookie w)
             && negb (eq_opt cookie (_last_failed_cookie w))
          then modify (set_last_failed_cookie None) else mret tt);;
         StateChanged Starting;;
         modify (set_gateway (Some gateway));;
         modify (set_cookie (Some cookie));;
         modify (set_servercert (Some servercert));;
         modify (set_disconnect_requested false);;
         modify (set_reconnection_pending false);;
         modify (set_reconnection_retry_count 0);;
         _start_openconnect e)
    (λ ex, match ex with
           | LaunchFailedError _ => raise ex
           | _ => StateChanged Stopped;;
                  raise (LaunchFailedError ("Connection failed: " +:+ exn_str ex))
           end).

(** [Connect(connection)] *)
Definition Connect (e : env) (connection : connection) : M unit :=
  if negb (truthy_opt (vpn_secrets connection !! "cookie")) then
    let gateway := get_str (vpn_data connection) "gateway" in
    if negb (truthy gateway) then
      raise (LaunchFailedError "No gateway specified in VPN configuration")
    else
      let gateway := normalize_gateway gateway in
      modify (set_pending_connection (Some connection));;
      modify (set_gateway (Some gateway));;
      modify (set_reconnection_pending true);;
      modify (set_reconnection_retry_count 0);;
      StateChanged Starting;;
      _schedule_direct_auth 0
  else
    _do_connect e connection.

(** [ConnectInteractive(connection, details)]; [details] is not read. *)
Definition ConnectInteractive (e : env) (connection : connection) : M unit :=
  modify (set_pending_connection (Some connection));;
  let cookie := get_str (vpn_secrets connection) "cookie" in
  let gateway := get_str (vpn_data connection) "gateway" in
  w ← get;
  let cookie :=
    if truthy cookie && truthy_opt (_last_failed_cookie w)
       && eq_opt cookie (_last_failed_cookie w)
    then "" else cookie in
  if negb (truthy cookie) then
    if negb (truthy gateway) then
      raise (LaunchFailedError "No gateway specified in VPN configuration")
    else
      let gateway := normalize_gateway gateway in
      modify (set_gateway (Some gateway));;
      modify (set_reconnection_pending true);;
      modify (set_reconnection_retry_count 0);;
      StateChanged Starting;;
      _schedule_direct_auth 0
  else
    _do_connect e connection.

(** [NeedSecrets(settings)]: always [''] *)
Definition NeedSecrets (settings : connection) : M string := mret "".

(** [_clear_cached_secrets]: a D-Bus round trip whose failures are swallowed. *)
Definition _clear_cached_secrets : M unit := emit ActClearCachedSecrets.

(** [Disconnect()] *)
Definition Disconnect (e : env) : M unit :=
  w ← get;
  if _reconnection_pending w then
    modify (set_disconnect_requested true);;
    StateChanged Stopped
  else
    modify (set_disconnect_requested true);;
    modify (set_cookie None);;
    modify (set_gateway None);;
    modify (set_last_failed_cookie None);;
    modify (set_pending_connection None);;
    _cancel_direct_auth_timer;;
    _cancel_secrets_timeout;;
    match proc w with
    | Some pid =>
        emit (ActTerminate pid);;
        (if graceful e then mret tt else emit (ActKill pid));;
        modify (set_proc None)
    | None => mret tt
    end;;
    _clear_cached_secrets;;
    StateChanged Stopped;;
    emit ActLoopQuit;;
    modify (set_loop_running false).

(** [SetConfig(config)] *)
Definition SetConfig (config : gmap string string) : M unit :=
  modify (set_config config);;
  emit (SigConfig config).

(** [SetIp4Config(config)] *)
Definition SetIp4Config (config : gmap string string) : M unit :=
  w ← get;
  match _restart_timeout_id w with
  | Some id => source_remove id;; modify (set_restart_timeout_id None)
  | None => mret tt
  end;;
  (if 0 <? _auth_failure_count w
   then modify (set_auth_failure_count 0) else mret tt);;
  (if 0 <? _reconnection_retry_count w
   then modify (set_reconnection_retry_count 0) else mret tt);;
  match _last_failed_cookie w with
  | Some _ => modify (set_last_failed_cookie None)
  | None => mret tt
  end;;
  _cancel_direct_auth_timer;;
  modify (set_ip4config config);;
  emit (SigIp4Config config);;
  StateChanged Started.

(** [SetIp6Config(config)] *)
Definition SetIp6Config (config : gmap string string) : M unit :=
  emit (SigIp6Config config).

(** [SetFailure(reason)] *)
Definition SetFailure (reason : string) : M unit :=
  StateChanged Stopped.

(** [NewSecrets(connection)] *)
Definition NewSecrets (e : env) (connection : connection) : M unit :=
  _cancel_secrets_timeout;;
  let new_secrets := vpn_secrets connection in
  w ← get;
  if negb (truthy_opt (new_secrets !! "cookie")) then
    let gateway := get_str (vpn_data connection) "gateway" in
    let gateway :=
      if negb (truthy gateway) && truthy_conn (pending_connection w)
      then match pending_connection w with
           | Some pc => get_str (vpn_data pc) "gateway"
           | None => gateway
           end
      else gateway in
    if negb (truthy gateway) then
      StateChanged Stopped;;
      Failure "No VPN gateway configured"
    else
      let gateway := normalize_gateway gateway in
      modify (set_gateway (Some gateway));;
      modify (set_reconnection_pending true);;
      modify (set_reconnection_retry_count 0);;
      _schedule_direct_auth 0
  else if truthy_conn (pending_connection w) then
    match pending_connection w with
    | Some pc =>
        let s := default (Setting None None) (pc !! "vpn") in
        let old := default ∅ (secrets s) in
        let pc' := <["vpn" := Setting (data s) (Some (new_secrets ∪ old))]> pc in
        modify (set_pending_connection (Some pc'));;
        _do_connect e pc';;
        modify (set_pending_connection None)
    | None => mret tt
    end
  else if truthy_opt (gateway w) then
    match gateway w with
    | Some g =>
        let reauth_connection : gmap string setting :=
          {["vpn" := Setting (Some {["gateway" := g]}) (Some new_secrets)]} in
        _do_connect e reauth_connection
    | None => mret tt
    end
  else mret tt.

(** ** The event loop *)

(** What the main loop can dispatch: an inbound D-Bus call, a timer that
    expired, or the exit of a watched child with its wait status. *)
Inductive event : Type :=
  | EvConnect (c : connection)
  | EvConnectInteractive (c : connection)
  | EvNeedSecrets (c : connection)
  | EvNewSecrets (c : connection)
  | EvDisconnect
  | EvSetConfig (c : gmap string string)
  | EvSetIp4Config (c : gmap string string)
  | EvSetIp6Config (c : gmap string string)
  | EvSetFailure (reason : string)
  | EvTimer (id : nat)
  | EvChildExit (pid status : Z).

(** A D-Bus method call: an exception that escapes becomes the error reply. *)
Definition dbus_call {A : Type} (m : M A) (w : world) : world :=
  match m w with
  | (Done _, w') => w'
  | (Raised ex, w') => set_trace (ErrorReply ex :: trace w') w'
  end.

Definition run_callback (e : env) (cb : callback) : M bool :=
  match cb with
  | DoRestart => _do_restart e
  | LaunchDirectAuth => _launch_direct_auth e
  | OnSecretsTimeout => _on_secrets_timeout
  end.

Definition is_watch_of (pid : Z) (s : nat * source) : bool :=
  match s.2 with
  | ChildWatch p => p =? pid
  | Timeout _ _ => false
  end.

(** One dispatch of the main loop.  A timer source is one-shot (every
    callback returns [False]); a child watch is removed once it has fired. *)
Definition step (w : world) (i : env * event) : world :=
  let '(e, ev) := i in
  match ev with
  | EvConnect c => dbus_call (Connect e c) w
  | EvConnectInteractive c => dbus_call (ConnectInteractive e c) w
  | EvNeedSecrets c => dbus_call (NeedSecrets c) w
  | EvNewSecrets c => dbus_call (NewSecrets e c) w
  | EvDisconnect => dbus_call (Disconnect e) w
  | EvSetConfig c => dbus_call (SetConfig c) w
  | EvSetIp4Config c => dbus_call (SetIp4Config c) w
  | EvSetIp6Config c => dbus_call (SetIp6Config c) w
  | EvSetFailure r => dbus_call (SetFailure r) w
  | EvTimer id =>
      match List.find (λ s, Nat.eqb s.1 id) (sources w) with
      | Some (_, Timeout _ cb) =>
          exec (run_callback e cb) (set_sources (drop_source id (sources w)) w)
      | _ => w
      end
  | EvChildExit pid status =>
      if existsb (is_watch_of pid) (sources w) then
        exec (_on_openconnect_exit pid status)
             (set_sources (List.filter (λ s, negb (is_watch_of pid s)) (sources w)) w)
      else w
  end.

Definition run (w : world) (l : list (env * event)) : world :=
  fold_left step l w.

(** States the service can be in: [init] followed by any dispatches.
    Dispatches after [loop.quit()] are not excluded (sources that were ready
    in the same iteration still run), so the invariants below cover them,
    while none of the scenarios further down goes through a quit. *)
Inductive reachable (helper : string) : world → Prop :=
  | reachable_init : reachable helper (init helper)
  | reachable_step w i : reachable helper w → reachable helper (step w i).

(** ** Observations *)

(** The externally visible lifecycle state: the last [StateChanged] signal. *)
Fixpoint last_state (t : list action) : option ServiceState :=
  match t with
  | [] => None
  | SigStateChanged s :: _ => Some s
  | _ :: t' => last_state t'
  end.

Definition external_state (w : world) : ServiceState :=
  default Init (last_state (trace w)).

Definition is_timer (cb : callback) (s : nat * source) : bool :=
  match s.2 with
  | Timeout _ LaunchDirectAuth =>
      match cb with LaunchDirectAuth => true | _ => false end
  | Timeout _ DoRestart => match cb with DoRestart => true | _ => false end
  | Timeout _ OnSecretsTimeout =>
      match cb with OnSecretsTimeout => true | _ => false end
  | ChildWatch _ => false
  end.

(** Number of pending timers whose callback is [cb]. *)
Definition pending_timers (cb : callback) (w : world) : nat :=
  length (List.filter (is_timer cb) (sources w)).

(** The launches of the tunnel binary recorded in a trace. *)
Definition is_popen (a : action) : bool :=
  match a with ActPopen _ _ => true | _ => false end.


Definition launches (w : world) : list action :=
  List.filter is_popen (trace w).

(** [sub in s] *)
Fixpoint contains (sub s : string) : bool :=
  String.prefix sub s
  || match s with
     | EmptyString => false
     | String _ s' => contains sub s'
     end.

(** The browser agent did not deliver a cookie: no session to run it in, a
    timeout, an exception, a non-zero exit or output without a cookie. *)
Definition agent_failed (a : agent_result) : bool :=
  match a with
  | NoGraphicalSession | AgentTimeout | AgentException _ => true
  | AgentExit returncode lines =>
      negb (returncode =? 0)
      || negb (truthy_opt (parse_auth_output lines None None).1)
  end.






(** Direct browser re-authentication is scheduled. *)
Definition reauth_scheduled (w : world) : Prop :=
  _reconnection_pending w = true
  ∧ ∃ id delay, _direct_auth_timeout_id w = Some id
                ∧ (id, Timeout delay LaunchDirectAuth) ∈ sources w.

(** ** Invariants of the reachable states *)

Definition not_direct_auth (s : nat * source) : Prop :=
  is_timer LaunchDirectAuth s = false.

(** Whatever direct-auth timer is attached is the one the plugin tracks. *)
Definition tracked_by (o : option nat) (s : nat * source) : Prop :=
  is_timer LaunchDirectAuth s = true → o = Some s.1.

(** The id of an attached source was handed out before [n]. *)
Definition fresh_below (n : nat) (s : nat * source) : Prop := (s.1 < n)%nat.

Record inv (w : world) : Prop := Inv {
  inv_proc_gateway : proc w ≠ None → truthy_opt (gateway w) = true;
  inv_pending_gateway : _reconnection_pending w = true → truthy_opt (gateway w) = true;
  inv_failed_gateway : _last_failed_cookie w ≠ None → truthy_opt (gateway w) = true;
  inv_auth_failures : 0 ≤ _auth_failure_count w;
  inv_retries : 0 ≤ _reconnection_retry_count w;
  inv_no_secrets_id : _secrets_timeout_id w = None;
  inv_no_secrets_timer :
    Forall (λ s, is_timer OnSecretsTimeout s = false) (sources w);
  inv_tracked : Forall (tracked_by (_direct_auth_timeout_id w)) (sources w);
  inv_fresh : Forall (fresh_below (next_source_id w)) (sources w);
}.

(** The id the plugin tracks in [_direct_auth_timeout_id] names direct-auth
    timers only. *)
Definition names_direct_auth (o : option nat) (s : nat * source) : Prop :=
  o = Some s.1 → is_timer LaunchDirectAuth s = true.

Record timer_inv (w : world) : Prop := TimerInv {
  tinv_bound : ∀ n, _direct_auth_timeout_id w = Some n → (n < next_source_id w)%nat;
  tinv_names : Forall (names_direct_auth (_direct_auth_timeout_id w)) (sources w);
  tinv_fresh : Forall (fresh_below (next_source_id w)) (sources w);
}.

(** ** Scenarios *)

Module Scenario.

Definition helper : string := "/usr/libexec/nm-pulse-sso-helper".
Definition gw : string := "https://vpn.example.com/emp".

(** A connection description with gateway [g] and cookie [c]. *)
Definition description (g c : string) : connection :=
  {["vpn" := Setting (Some {["gateway" := g]}) (Some {["cookie" := c]})]}.

Definition without_cookie (g : string) : connection :=
  {["vpn" := Setting (Some {["gateway" := g]}) None]}.

Definition without_gateway (c : string) : connection :=
  {["vpn" := Setting None (Some {["cookie" := c]})]}.

(** The tunnel binary starts as process [pid]; the browser agent, if it
    is run, returns [lines]. *)
Definition answers (pid : Z) (lines : list string) : env :=
  {| dtls_enabled := false; popen := Spawned pid;
     agent := AgentExit 0 lines; graceful := true |}.

Definition quiet : env := answers 0 [].

(** Wait statuses: exit code 1 and exit code 2. *)
Definition exited_1 : Z := 256.
Definition exited_2 : Z := 512.

(** Two transient exits less than a backoff apart, a connect request
    with a fresh cookie in between. *)
Definition two_transient_exits : list (env * event) :=
  [ (answers 100 [], EvConnect (description gw "abc123"));
    (quiet, EvChildExit 100 exited_1);
    (answers 101 [], EvConnect (description gw "def456"));
    (quiet, EvChildExit 101 exited_1) ].

(** ... then a third connect whose tunnel comes up. *)
Definition tunnel_up_after_two_exits : list (env * event) :=
  (two_transient_exits
   ++ [ (answers 102 [], EvConnect (description gw "ghi789"));
        (quiet, EvSetIp4Config ∅) ])%list.

(** A tunnel that exits with a transient code: its restart is scheduled. *)
Definition connect_then_transient_exit : list (env * event) :=
  [ (answers 100 [], EvConnect (description gw "abc123"));
    (quiet, EvChildExit 100 exited_1) ].

(** Connect without a cookie, then Disconnect while the browser
    re-authentication is still pending. *)
Definition disconnect_while_pending : list (env * event) :=
  [ (quiet, EvConnect (without_cookie gw));
    (quiet, EvDisconnect) ].

(** ... then the direct-auth timer fires and the agent returns a cookie. *)
Definition timer_after_disconnect : list (env * event) :=
  (disconnect_while_pending
   ++ [ (answers 100 ["cookie"; "abc123"], EvTimer 1) ])%list.

(** Four cookies rejected in a row; the direct-auth timer left over from
    the third rejection then fires and finds nothing pending. *)
Definition four_rejections : list (env * event) :=
  [ (answers 100 [], EvConnect (description gw "abc123"));
    (quiet, EvChildExit 100 exited_2);
    (answers 101 [], EvConnect (description gw "def456"));
    (quiet, EvChildExit 101 exited_2);
    (answers 102 [], EvConnect (description gw "ghi789"));
    (quiet, EvChildExit 102 exited_2);
    (answers 103 [], EvConnect (description gw "jkl012"));
    (quiet, EvChildExit 103 exited_2);
    (quiet, EvTimer 6) ].

End Scenario.

(** ** The claims that do not hold as they are worded *)

(** "Disconnect always results in terminal state [Stopped] and zero pending
    timers, regardless of which state it was issued from." *)
Definition disconnect_leaves_no_timer : Prop :=
  ∀ helper w e, reachable helper w →
    let w' := step w (e, EvDisconnect) in
    external_state w' = Stopped ∧ ∀ cb, pending_timers cb w' = 0%nat.


(** ** Further definitions: the session, the agent output, the configuration file *)

(** The gateway carries a scheme the way [normalize_gateway] tests it. *)
Definition has_scheme (gateway : string) : bool :=
  String.prefix "http://" gateway || String.prefix "https://" gateway.

(** A launch of the tunnel binary is well formed: the command line is the
    one [_start_openconnect] builds from the helper script, a gateway with a
    scheme and a non-empty cookie. *)
Definition launch_ok (helper : string) (a : action) : Prop :=
  match a with
  | ActPopen cmd _ =>
      ∃ dtls g c, cmd = openconnect_cmd dtls helper g c
                  ∧ truthy c = true ∧ has_scheme g = true
  | _ => True
  end.

Record session_inv (helper : string) (w : world) : Prop := SessionInv {
  sess_helper : helper_script w = helper;
  sess_scheme : ∀ g, gateway w = Some g → has_scheme g = true;
  sess_cookie : proc w ≠ None → truthy_opt (cookie w) = true;
  sess_launches : Forall (launch_ok helper) (trace w);
  sess_one_direct_auth : (pending_timers LaunchDirectAuth w ≤ 1)%nat;
}.

(** The line feed, U+000A. *)
Definition newline : string := String (Ascii.ascii_of_nat 10) EmptyString.

(** [print(s)]: what is written to the standard output. *)
Definition print (s : string) : string := s +:+ newline.

(** What [output_nm_format] of [pulse_sso_auth.py] writes to the standard
    output for [result = {gateway, cookie, gwcert}]:
    [print(f"gateway\n{...}")], [print(f"cookie\n{...}")], if
    [result.get("gwcert")] is true [print(f"gwcert\n{...}")], and a closing
    [print()].  A missing [gwcert] is the empty string here. *)
Definition output_nm_format (gateway cookie gwcert : string) : string :=
  print ("gateway" +:+ newline +:+ gateway)
  +:+ print ("cookie" +:+ newline +:+ cookie)
  +:+ (if truthy gwcert then print ("gwcert" +:+ newline +:+ gwcert) else "")
  +:+ print "".

(** [c.isspace()] for a character below U+0100. *)
Definition isspace (a : Ascii.ascii) : bool :=
  let n := Ascii.nat_of_ascii a in
  ((9 <=? n) && (n <=? 13) || (28 <=? n) && (n <=? 32)
   || (n =? 133) || (n =? 160))%nat.

(** [s.lstrip()] *)
Fixpoint lstrip (s : string) : string :=
  match s with
  | String a s' => if isspace a then lstrip s' else s
  | EmptyString => EmptyString
  end.

(** [s.rstrip()] *)
Fixpoint rstrip (s : string) : string :=
  match s with
  | String a s' =>
      match rstrip s' with
      | EmptyString => if isspace a then EmptyString else String a EmptyString
      | r => String a r
      end
  | EmptyString => EmptyString
  end.

(** [s.strip()] *)
Definition strip (s : string) : string := rstrip (lstrip s).

(** [s.split('\n')] *)
Fixpoint split_lines (s : string) : list string :=
  match s with
  | EmptyString => [EmptyString]
  | String a s' =>
      if Ascii.eqb a (Ascii.ascii_of_nat 10) then EmptyString :: split_lines s'
      else match split_lines s' with
           | line :: rest => String a line :: rest
           | [] => [String a EmptyString]
           end
  end.

(** [lines = stdout.decode().strip().split('\n')] of [_launch_direct_auth]:
    the lines its parsing loop runs over, from what the agent wrote. *)
Definition stdout_lines (stdout : string) : list string :=
  split_lines (strip stdout).

(** ['\n' not in s] *)
Fixpoint one_line (s : string) : bool :=
  match s with
  | EmptyString => true
  | String a s' => negb (Ascii.eqb a (Ascii.ascii_of_nat 10)) && one_line s'
  end.

(** [c.lower()] for a character below U+0100: the ASCII capitals and the
    Latin-1 capitals U+00C0..U+00DE except the multiplication sign. *)
Definition lower_char (a : Ascii.ascii) : Ascii.ascii :=
  let n := Ascii.nat_of_ascii a in
  if ((65 <=? n) && (n <=? 90)
      || (192 <=? n) && (n <=? 222) && negb (n =? 215))%nat
  then Ascii.ascii_of_nat (n + 32) else a.

(** [s.lower()] *)
Fixpoint lower (s : string) : string :=
  match s with
  | String a s' => String (lower_char a) (lower s')
  | EmptyString => EmptyString
  end.

(** [s.split('=', 1)[1]]: what follows the first ['=']; [None] stands for
    the [IndexError] when there is none. *)
Fixpoint after_equals (s : string) : option string :=
  match s with
  | String a s' => if Ascii.eqb a (Ascii.ascii_of_nat 61) then Some s' else after_equals s'
  | EmptyString => None
  end.

(** What [is_dtls_enabled] finds at [CONFIG_PATH]: no file, a file that
    cannot be read, or the [content.splitlines()] of the file. *)
Inductive config_file : Type :=
  | NoConfigFile
  | Unreadable
  | ConfigLines (lines : list string).

(** The [for line in content.splitlines()] loop of [is_dtls_enabled]: the
    first line that starts with [ENABLE_DTLS=] returns; an exception is
    caught and gives [False] like a file without such a line. *)
Fixpoint dtls_from_lines (lines : list string) : bool :=
  match lines with
  | line :: rest =>
      let line := strip line in
      if String.prefix "ENABLE_DTLS=" line then
        match after_equals line with
        | Some value => String.eqb (lower (strip value)) "true"
        | None => false
        end
      else dtls_from_lines rest
  | [] => false
  end.

(** [is_dtls_enabled()] *)
Definition is_dtls_enabled (f : config_file) : bool :=
  match f with
  | ConfigLines lines => dtls_from_lines lines
  | NoConfigFile | Unreadable => false
  end.

(** The line sets [ENABLE_DTLS]. *)
Definition sets_dtls (line : string) : bool :=
  String.prefix "ENABLE_DTLS=" (strip line).

(** [prop_line.split('=', 1)[0]]: what precedes the first ['=']. *)
Fixpoint before_equals (s : string) : string :=
  match s with
  | String a s' =>
      if Ascii.eqb a (Ascii.ascii_of_nat 61) then EmptyString
      else String a (before_equals s')
  | EmptyString => EmptyString
  end.

(** The [props] dictionary [_launch_direct_auth] fills from the lines of
    [loginctl show-session]: a line with an ['='] sets the key before the
    first ['='] to what follows it, other lines are skipped. *)
Definition session_props (lines : list string) : gmap string string :=
  fold_left
    (λ props prop_line,
       match after_equals prop_line with
       | Some v => <[before_equals prop_line := v]> props
       | None => props
       end)
    lines ∅.

(** [props.get('Type') in ('x11', 'wayland')] *)
Definition is_graphical (props : gmap string string) : bool :=
  match props !! "Type" with
  | Some t => String.eqb t "x11" || String.eqb t "wayland"
  | None => false
  end.

(** The session loop of [_launch_direct_auth], over the property lines of
    the listed sessions in order: [(user, display)] when the loop ends. *)
Fixpoint find_graphical_session (sessions : list (list string))
  : option string * string :=
  match sessions with
  | lines :: rest =>
      let props := session_props lines in
      if is_graphical props then
        (props !! "Name",
         match props !! "Display" with
         | Some d => if truthy d then d else ":0"
         | None => ":0"
         end)
      else find_graphical_session rest
  | [] => (None, ":0")
  end.

(** ** Proof support *)

Ltac unfold_monad :=
  cbv beta iota zeta delta
    [step dbus_call exec run_callback
     Connect ConnectInteractive NeedSecrets NewSecrets Disconnect
     SetConfig SetIp4Config SetIp6Config SetFailure
     _do_connect _start_openconnect _schedule_direct_auth
     _cancel_direct_auth_timer _cancel_secrets_timeout
     _schedule_secrets_timeout schedule_restart _schedule_auth_retry
     _ensure_direct_auth _on_openconnect_exit _do_restart
     _launch_direct_auth _on_secrets_timeout _clear_cached_secrets
     StateChanged Failure emit timeout_add child_watch_add source_remove Popen
     mbind mret M_bind M_ret raise get modify try_except
     set_proc set_config set_ip4config set_gateway set_cookie set_servercert
     set_pending_connection set_disconnect_requested set_child_watch_id
     set_restart_timeout_id set_auth_failure_count set_reconnection_pending
     set_reconnection_retry_count set_last_failed_cookie
     set_direct_auth_timeout_id set_secrets_timeout_id set_sources
     set_next_source_id set_trace set_loop_running
     proc config ip4config gateway cookie servercert pending_connection
     _disconnect_requested _child_watch_id _restart_timeout_id
     _auth_failure_count _reconnection_pending _reconnection_retry_count
     _last_failed_cookie _direct_auth_timeout_id _secrets_timeout_id
     helper_script sources next_source_id trace loop_running
     fst snd].

(** Split a goal about a handler run from a symbolic state into one goal
    per path through the handler. *)
Ltac paths :=
  unfold_monad;
  repeat (first
    [ progress cbv beta iota zeta delta [fst snd]
    | match goal with
      | |- context [match ?x with _ => _ end] =>
          lazymatch x with
          | context [match _ with _ => _ end] => fail
          | _ => destruct x eqn:?
          end
      end ]).

Ltac fields :=
  cbn [proc config ip4config gateway cookie servercert pending_connection
       _disconnect_requested _child_watch_id _restart_timeout_id
       _auth_failure_count _reconnection_pending _reconnection_retry_count
       _last_failed_cookie _direct_auth_timeout_id _secrets_timeout_id
       helper_script sources next_source_id trace loop_running] in *.

Ltac destruct_world w :=
  destruct w as [p cfg ip4 gw ck sc pc dr cw rt afc rp rrc lfc dat sti hs srcs nid tr lr].

(** Turn the boolean facts collected along a path into usable ones. *)
Ltac bool_facts :=
  repeat match goal with
    | H : negb _ = false |- _ => apply negb_false_iff in H
    | H : negb _ = true |- _ => apply negb_true_iff in H
    | H : _ && _ = true |- _ => apply andb_true_iff in H; destruct H
    | H : _ || _ = false |- _ => apply orb_false_iff in H; destruct H
    end.


Create HintDb sources_db.

(** * Theorems *)

(** ** Lists of sources *)

Lemma Forall_drop_source (P : nat * source → Prop) id l :
  Forall P l → Forall P (drop_source id l).
Proof.
  unfold drop_source. rewrite !Forall_forall. intros H x Hx.
  apply H. apply list_elem_of_In. apply list_elem_of_In in Hx.
  apply filter_In in Hx. tauto.
Qed.

Lemma Forall_list_filter {A} (P : A → Prop) f (l : list A) :
  Forall P l → Forall P (List.filter f l).
Proof.
  rewrite !Forall_forall. intros H x Hx.
  apply H. apply list_elem_of_In. apply list_elem_of_In in Hx.
  apply filter_In in Hx. tauto.
Qed.

Lemma Forall_snoc {A} (P : A → Prop) (l : list A) x :
  Forall P l → P x → Forall P (l ++ [x]).
Proof. intros. apply Forall_app. split; [done | by constructor]. Qed.

Lemma fresh_below_mono n m l :
  Forall (fresh_below n) l → (n ≤ m)%nat → Forall (fresh_below m) l.
Proof.
  intros HF Hle. eapply Forall_impl; [exact HF|].
  unfold fresh_below. intros s Hs. lia.
Qed.

#[local] Hint Resolve Forall_drop_source Forall_list_filter Forall_snoc Forall_nil_2
  : sources_db.

Lemma normalize_gateway_truthy g : truthy g = true → truthy (normalize_gateway g) = true.
Proof.
  unfold normalize_gateway. destruct (_ && _); [|done]. by destruct g.
Qed.

Lemma untracked_none l : Forall (tracked_by None) l → Forall not_direct_auth l.
Proof.
  intros HF. eapply Forall_impl; [exact HF|]. intros s H. unfold not_direct_auth.
  unfold tracked_by in H.
  destruct (is_timer LaunchDirectAuth s); [by specialize (H eq_refl)|done].
Qed.

Lemma untracked_drop n l :
  Forall (tracked_by (Some n)) l → Forall not_direct_auth (drop_source n l).
Proof.
  unfold drop_source. rewrite !Forall_forall. intros H s Hs.
  apply list_elem_of_In, filter_In in Hs as [Hs Hn].
  apply list_elem_of_In in Hs. specialize (H s Hs). unfold not_direct_auth.
  unfold tracked_by in H. destruct (is_timer LaunchDirectAuth s); [|done].
  specialize (H eq_refl). injection H as ->. by rewrite Nat.eqb_refl in Hn.
Qed.

Lemma not_direct_auth_tracked o l :
  Forall not_direct_auth l → Forall (tracked_by o) l.
Proof.
  intros HF. eapply Forall_impl; [exact HF|].
  intros s H Ht. unfold not_direct_auth in H. congruence.
Qed.

Lemma find_source id l i s :
  List.find (λ s : nat * source, Nat.eqb s.1 id) l = Some (i, s) → i = id ∧ (id, s) ∈ l.
Proof.
  intros H. apply find_some in H as [Hin Heq]. apply Nat.eqb_eq in Heq. simpl in Heq.
  subst. split; [done|]. by apply list_elem_of_In.
Qed.

#[local] Hint Resolve untracked_none untracked_drop : sources_db.
#[local] Hint Extern 1 (not_direct_auth _) => reflexivity : sources_db.
#[local] Hint Extern 1 (tracked_by _ _) => (intros ?; discriminate) : sources_db.
#[local] Hint Extern 1 (tracked_by _ _) => (intros ?; reflexivity) : sources_db.
#[local] Hint Extern 1 (is_timer _ _ = false) => reflexivity : sources_db.

Ltac solve_gateway :=
  intros;
  repeat match goal with
    | H : truthy_opt ?o = true |- _ => is_var o; destruct o; [|discriminate H]
    end;
  first [ done
        | match goal with H : _ → truthy_opt _ = true |- _ => by apply H end
        | match goal with
          | E : truthy_opt ?g = false |- truthy_opt ?g = true =>
              rewrite E; match goal with H : _ → false = true |- _ => by apply H end
          end
        | cbn [truthy_opt]; first [done | by apply normalize_gateway_truthy] ].

Ltac solve_sources :=
  first [ solve [auto 10 with sources_db]
        | solve [apply not_direct_auth_tracked; auto 10 with sources_db]
        | solve [apply Forall_snoc;
                 [apply not_direct_auth_tracked; auto 10 with sources_db
                 | auto with sources_db]] ].

Ltac solve_fresh :=
  solve [ repeat first
    [ assumption
    | apply Forall_drop_source
    | apply Forall_list_filter
    | apply Forall_snoc; [|unfold fresh_below; cbn; lia]
    | eapply fresh_below_mono; [eassumption|lia] ] ].

Ltac solve_inv :=
  split; fields; first [ solve_gateway | lia | done | solve_sources | solve_fresh ].

Lemma inv_init helper : inv (init helper).
Proof. split; cbn; try done; lia. Qed.

(** Every dispatch of the main loop preserves the invariants. *)
Lemma inv_step w i : inv w → inv (step w i).
Proof.
  destruct i as [e ev]. destruct_world w. intros [H1 H2 H3 H4 H5 H6 H7 H8 H9].
  fields. subst sti.
  destruct ev.
  10: { (* a timer fires *)
    cbv beta iota delta [step sources].
    destruct (List.find _ srcs) as [[i [d cb|pid]]|] eqn:Hf; [|by split..].
    apply find_source in Hf as [-> Hin].
    assert (Hlda : cb = LaunchDirectAuth → dat = Some id).
    { intros ->. rewrite Forall_forall in H8. by apply (H8 _ Hin). }
    destruct cb; [clear Hlda|specialize (Hlda eq_refl); subst dat|clear Hlda].
    all: paths; bool_facts; solve_inv. }
  all: paths; bool_facts; solve_inv.
Qed.

Lemma reachable_inv helper w : reachable helper w → inv w.
Proof. induction 1; [apply inv_init | by apply inv_step]. Qed.

Lemma reachable_run helper w l : reachable helper w → reachable helper (run w l).
Proof.
  revert w. induction l as [|i l IH]; intros w Hw; [done|].
  apply IH. by constructor.
Qed.

(** ** Counting pending timers *)

Lemma filter_nil_Forall {A} (f : A → bool) (l : list A) :
  Forall (λ x, f x = false) l → List.filter f l = [].
Proof.
  induction 1 as [|x l Hx _ IH]; [done|]. simpl. by rewrite Hx.
Qed.

Lemma no_timer_count cb w :
  Forall (λ s, is_timer cb s = false) (sources w) → pending_timers cb w = 0%nat.
Proof. intros H. unfold pending_timers. by rewrite filter_nil_Forall. Qed.

Lemma one_direct_auth l x :
  Forall not_direct_auth l → is_timer LaunchDirectAuth x = true →
  length (List.filter (is_timer LaunchDirectAuth) (l ++ [x])) = 1%nat.
Proof.
  intros Hl Hx. rewrite List.filter_app, (filter_nil_Forall _ l Hl). simpl.
  by rewrite Hx.
Qed.

Lemma in_snoc {A} (l : list A) x : x ∈ l ++ [x].
Proof. apply elem_of_app. right. by apply list_elem_of_singleton. Qed.

Ltac z_facts :=
  repeat match goal with
    | H : (_ <? _) = true |- _ => apply Z.ltb_lt in H
    | H : (_ <? _) = false |- _ => apply Z.ltb_ge in H
    | H : (_ <=? _) = true |- _ => apply Z.leb_le in H
    | H : (_ <=? _) = false |- _ => apply Z.leb_gt in H
    | H : (_ =? _) = true |- _ => apply Z.eqb_eq in H
    | H : (_ =? _) = false |- _ => apply Z.eqb_neq in H
    end.

(** ** C9: the secrets-wait timer *)

(** C9. In every reachable state the secrets-wait timer is not pending: the
    plugin tracks no secrets-wait source, none is attached to the main loop,
    and so no timer dispatch can run [_on_secrets_timeout]. *)
Theorem secrets_wait_never_pending helper w :
  reachable helper w →
  _secrets_timeout_id w = None
  ∧ pending_timers OnSecretsTimeout w = 0%nat
  ∧ ∀ id i delay,
      List.find (λ s : nat * source, Nat.eqb s.1 id) (sources w)
      ≠ Some (i, Timeout delay OnSecretsTimeout).
Proof.
  intros Hr. destruct (reachable_inv _ _ Hr) as [_ _ _ _ _ Hid Hs _ _].
  split; [done|]. split; [by apply no_timer_count|].
  intros id i delay Hf. apply find_source in Hf as [-> Hin].
  rewrite Forall_forall in Hs. by specialize (Hs _ Hin).
Qed.

Lemma secrets_wait_never_pending_witness :
  let w := run (init Scenario.helper) Scenario.timer_after_disconnect in
  _secrets_timeout_id w = None
  ∧ pending_timers OnSecretsTimeout w = 0%nat
  ∧ ∀ id i delay,
      List.find (λ s : nat * source, Nat.eqb s.1 id) (sources w)
      ≠ Some (i, Timeout delay OnSecretsTimeout).
Proof.
  apply (secrets_wait_never_pending Scenario.helper).
  apply reachable_run, reachable_init.
Defined.

(** ** C1: credential rejections *)

(** C1. When the tunnel exits with code 2 and no disconnect was requested,
    the auth-failure count goes up by one; the supervisor reports fatal
    [Stopped], with a failure reason containing "repeatedly", exactly when
    the new count exceeds 3, and for a count of 3 or fewer it reports
    [Starting] and schedules direct browser re-authentication. *)
Theorem credential_rejected_exit helper w pid status :
  reachable helper w →
  proc w = Some pid →
  _disconnect_requested w = false →
  exit_code_of status = 2 →
  let w' := exec (_on_openconnect_exit pid status) w in
  _auth_failure_count w' = _auth_failure_count w + 1
  ∧ (external_state w' = Stopped ↔ 3 < _auth_failure_count w')
  ∧ (3 < _auth_failure_count w' →
       ∃ reason, trace w' = SigFailure reason :: SigStateChanged Stopped :: trace w
                 ∧ contains "repeatedly" reason = true)
  ∧ (_auth_failure_count w' ≤ 3 →
       trace w' = SigStateChanged Starting :: trace w
       ∧ external_state w' = Starting
       ∧ reauth_scheduled w'
       ∧ pending_timers LaunchDirectAuth w' = 1%nat).
Proof.
  intros Hr Hp Hd Hc. destruct (reachable_inv _ _ Hr) as [H1 _ _ _ _ _ _ H8 _].
  specialize (H1 ltac:(by rewrite Hp)).
  destruct_world w. fields. subst p dr.
  unfold external_state, reauth_scheduled, pending_timers.
  paths; bool_facts; z_facts; fields; try lia; try congruence.
  all: try match goal with
         | H : truthy_opt _ && _ = false |- _ => rewrite H1 in H; discriminate H
         end.
  all: cbn [last_state default from_option id].
  all: repeat split; intros; try lia; try done.
  all: try (eexists; split; [reflexivity|vm_compute; reflexivity]).
  all: try (eexists _, _; split; [reflexivity|apply in_snoc]).
  all: apply one_direct_auth; [auto with sources_db|reflexivity].
Qed.

Lemma credential_rejected_exit_witness :
  let w := run (init Scenario.helper)
             [(Scenario.answers 100 [],
               EvConnect (Scenario.description Scenario.gw "abc123"))] in
  let w' := exec (_on_openconnect_exit 100 Scenario.exited_2) w in
  _auth_failure_count w' = _auth_failure_count w + 1
  ∧ (external_state w' = Stopped ↔ 3 < _auth_failure_count w')
  ∧ (3 < _auth_failure_count w' →
       ∃ reason, trace w' = SigFailure reason :: SigStateChanged Stopped :: trace w
                 ∧ contains "repeatedly" reason = true)
  ∧ (_auth_failure_count w' ≤ 3 →
       trace w' = SigStateChanged Starting :: trace w
       ∧ external_state w' = Starting
       ∧ reauth_scheduled w'
       ∧ pending_timers LaunchDirectAuth w' = 1%nat).
Proof.
  apply (credential_rejected_exit Scenario.helper).
  - apply reachable_run, reachable_init.
  - vm_compute. reflexivity.
  - vm_compute. reflexivity.
  - vm_compute. reflexivity.
Defined.

(** The scenario of three rejected cookies followed by a fourth: the
    first three rejections report [Starting], the fourth is fatal. *)
Example four_rejections_are_fatal :
  let w3 := run (init Scenario.helper) (take 6 Scenario.four_rejections) in
  let w4 := run (init Scenario.helper) (take 8 Scenario.four_rejections) in
  _auth_failure_count w3 = 3 ∧ external_state w3 = Starting
  ∧ _auth_failure_count w4 = 4 ∧ external_state w4 = Stopped
  ∧ trace w4 = SigFailure "Authentication failed repeatedly - please reconnect manually"
               :: SigStateChanged Stopped
               :: trace (run (init Scenario.helper) (take 7 Scenario.four_rejections)).
Proof. vm_compute. repeat split. Qed.

(** ** C7: transient tunnel exits *)

Lemma find_fresh id l x :
  Forall (fresh_below id) l →
  List.find (λ s : nat * source, Nat.eqb s.1 id) (l ++ [(id, x)]) = Some (id, x).
Proof.
  induction 1 as [|s l Hs _ IH]; simpl.
  - by rewrite Nat.eqb_refl.
  - unfold fresh_below in Hs. destruct (Nat.eqb_spec s.1 id); [lia|done].
Qed.

Lemma drop_source_fresh id l x :
  Forall (fresh_below id) l → drop_source id (l ++ [(id, x)]) = l.
Proof.
  unfold drop_source. induction 1 as [|s l Hs _ IH]; simpl.
  - by rewrite Nat.eqb_refl.
  - unfold fresh_below in Hs. destruct (Nat.eqb_spec s.1 id); [lia|]. simpl.
    by rewrite IH.
Qed.

(** Dispatching the timer that was attached last runs its callback. *)
Lemma dispatch_last_timer w e l id delay cb :
  sources w = l ++ [(id, Timeout delay cb)] →
  Forall (fresh_below id) l →
  step w (e, EvTimer id) = exec (run_callback e cb) (set_sources l w).
Proof.
  intros Hs Hl. unfold step. by rewrite Hs, find_fresh, drop_source_fresh.
Qed.




(** ** C8: failures of the browser authentication agent *)

(** C8. Every run of the direct-auth callback with a reconnection pending
    increments the attempt counter before the agent is launched.  When the
    agent then fails or times out and the counter is below 10, a direct-auth
    retry is scheduled 3000 ms later and nothing is reported; once the
    counter exceeds 10 the supervisor reports [Stopped] and emits a
    failure. *)
Theorem agent_failure_retries w e :
  _reconnection_pending w = true →
  let n := _reconnection_retry_count w + 1 in
  let w' := exec (_launch_direct_auth e) w in
  (n ≤ _max_reconnection_retries → agent_failed (agent e) = true →
     _reconnection_retry_count w' = n
     ∧ (n < _max_reconnection_retries →
          trace w' = trace w
          ∧ _reconnection_pending w' = true
          ∧ sources w' = sources w ++ [(next_source_id w,
                                        Timeout 3000 LaunchDirectAuth)]
          ∧ _direct_auth_timeout_id w' = Some (next_source_id w)))
  ∧ (_max_reconnection_retries < n →
       _reconnection_retry_count w' = n
       ∧ (∃ reason, trace w' = SigFailure reason :: SigStateChanged Stopped :: trace w)
       ∧ external_state w' = Stopped
       ∧ _reconnection_pending w' = false
       ∧ sources w' = sources w).
Proof.
  intros Hp. destruct_world w. fields. subst rp.
  unfold external_state.
  split.
  - intros Hn Hf. unfold_monad. revert Hf.
    destruct (agent e) as [| |msg|rc lines]; cbn [agent_failed]; intros Hf.
    4: destruct (parse_auth_output lines None None) as [ck' gc'] eqn:Hparse;
       cbn [fst] in Hf.
    all: paths; unfold _max_reconnection_retries, _reconnection_retry_interval in *.
    all: try match goal with
           | H1 : negb (_ =? 0) = false, H2 : negb (truthy_opt _) = false |- _ =>
               rewrite H1, H2 in Hf; discriminate Hf
           end.
    all: bool_facts; z_facts; fields; try lia.
    all: split; [done|intros; try lia; done].
  - intros Hn. paths; unfold _max_reconnection_retries in *; z_facts; fields; try lia.
    repeat split; try done. by eexists.
Qed.

Lemma agent_failure_retries_witness :
  let w := run (init Scenario.helper)
             [(Scenario.quiet, EvConnect (Scenario.without_cookie Scenario.gw))] in
  let e := {| dtls_enabled := false; popen := Spawned 100;
              agent := AgentTimeout; graceful := true |} in
  let n := _reconnection_retry_count w + 1 in
  let w' := exec (_launch_direct_auth e) w in
  (n ≤ _max_reconnection_retries → agent_failed (agent e) = true →
     _reconnection_retry_count w' = n
     ∧ (n < _max_reconnection_retries →
          trace w' = trace w
          ∧ _reconnection_pending w' = true
          ∧ sources w' = sources w ++ [(next_source_id w,
                                        Timeout 3000 LaunchDirectAuth)]
          ∧ _direct_auth_timeout_id w' = Some (next_source_id w)))
  ∧ (_max_reconnection_retries < n →
       _reconnection_retry_count w' = n
       ∧ (∃ reason, trace w' = SigFailure reason :: SigStateChanged Stopped :: trace w)
       ∧ external_state w' = Stopped
       ∧ _reconnection_pending w' = false
       ∧ sources w' = sources w).
Proof.
  apply agent_failure_retries. vm_compute. reflexivity.
Defined.

(** At the bound itself the two retry paths of [_launch_direct_auth]
    differ: a missing session or a non-zero exit of the agent schedules one
    more retry, a timeout or an exception gives up at once. *)
Lemma agent_failure_at_bound w e :
  _reconnection_pending w = true →
  _reconnection_retry_count w + 1 = _max_reconnection_retries →
  let w' := exec (_launch_direct_auth e) w in
  match agent e with
  | NoGraphicalSession =>
      trace w' = trace w
      ∧ sources w' = sources w ++ [(next_source_id w, Timeout 3000 LaunchDirectAuth)]
  | AgentExit returncode _ =>
      returncode ≠ 0 →
      trace w' = trace w
      ∧ sources w' = sources w ++ [(next_source_id w, Timeout 3000 LaunchDirectAuth)]
  | AgentTimeout | AgentException _ =>
      external_state w' = Stopped
      ∧ _reconnection_pending w' = false
      ∧ sources w' = sources w
  end.
Proof.
  destruct_world w. fields. intros -> Hn. unfold external_state.
  unfold_monad.
  destruct (agent e) as [| |msg|rc lines].
  4: intros Hrc; apply Z.eqb_neq in Hrc; rewrite Hrc; cbn [negb].
  all: paths; unfold _max_reconnection_retries, _reconnection_retry_interval in *;
       z_facts; fields; try lia; done.
Qed.

(** ** C10 and C6: the tunnel reports its IPv4 configuration *)

Lemma truthy_get_str (d : gmap string string) k :
  truthy (get_str d k) = truthy_opt (d !! k).
Proof. unfold get_str. by destruct (d !! k). Qed.

Lemma drop_source_gone id l : Forall (λ s, s.1 ≠ id) (drop_source id l).
Proof.
  unfold drop_source. rewrite Forall_forall. intros x Hx.
  apply list_elem_of_In, filter_In in Hx as [_ Hx].
  by apply negb_true_iff, Nat.eqb_neq in Hx.
Qed.

(** What [SetIp4Config] does in every state with sane counters: both
    counters are zero afterwards, the restart timer the plugin tracks is
    detached and forgotten, and [Started] is reported. *)
Lemma ip4_config_resets w config :
  0 ≤ _auth_failure_count w →
  0 ≤ _reconnection_retry_count w →
  let w' := exec (SetIp4Config config) w in
  _auth_failure_count w' = 0
  ∧ _reconnection_retry_count w' = 0
  ∧ _restart_timeout_id w' = None
  ∧ (∀ id, _restart_timeout_id w = Some id → Forall (λ s, s.1 ≠ id) (sources w'))
  ∧ external_state w' = Started
  ∧ trace w' = SigStateChanged Started :: SigIp4Config config :: trace w.
Proof.
  destruct_world w. fields. intros Ha Hr. unfold external_state.
  paths; z_facts; fields; repeat split; try lia; try done.
  all: intros id [= ->];
       first [apply drop_source_gone | apply Forall_drop_source, drop_source_gone].
Qed.



(** C6. The claim that every [SetIp4Config] cancels any pending
    restart-backoff timer does not hold on the code: after two transient
    exits less than a backoff apart the plugin has two restart timers and
    knows the id of the second only.  When the tunnel of a third connect
    reports its IPv4 configuration the counters are zero and the state is
    [Started], yet the first restart timer is still attached; when it fires
    it launches a second tunnel beside the one that is up. *)
Theorem restart_timer_survives_ip4_config :
  let w := run (init Scenario.helper) Scenario.tunnel_up_after_two_exits in
  external_state w = Started
  ∧ _auth_failure_count w = 0 ∧ _reconnection_retry_count w = 0
  ∧ _restart_timeout_id w = None
  ∧ proc w = Some 102
  ∧ pending_timers DoRestart w = 1%nat
  ∧ trace (step w (Scenario.answers 103 [], EvTimer 2))
    = ActPopen (openconnect_cmd false Scenario.helper Scenario.gw "ghi789") 103
      :: trace w.
Proof. vm_compute. repeat split. Qed.

(** ** C5: one pending timer per name *)

(** Scheduling the direct-auth timer replaces the one that is pending. *)
Lemma schedule_direct_auth_replaces w delay :
  Forall (tracked_by (_direct_auth_timeout_id w)) (sources w) →
  let w' := exec (_schedule_direct_auth delay) w in
  pending_timers LaunchDirectAuth w' = 1%nat
  ∧ Forall (tracked_by (_direct_auth_timeout_id w')) (sources w').
Proof.
  destruct_world w. fields. intros H. unfold pending_timers.
  paths; fields; (split; [apply one_direct_auth; [auto with sources_db|done]|]).
  all: apply Forall_snoc; [apply not_direct_auth_tracked; auto with sources_db|done].
Qed.

Lemma schedule_direct_auth_returns w delay :
  _schedule_direct_auth delay w = (Done tt, exec (_schedule_direct_auth delay) w).
Proof. destruct_world w. paths; done. Qed.

Lemma schedule_direct_auth_twice helper w d1 d2 :
  reachable helper w →
  pending_timers LaunchDirectAuth
    (exec (_schedule_direct_auth d1;; _schedule_direct_auth d2) w) = 1%nat.
Proof.
  intros Hr. apply reachable_inv in Hr as [_ _ _ _ _ _ _ H _].
  destruct (schedule_direct_auth_replaces w d1 H) as [_ H1].
  destruct (schedule_direct_auth_replaces _ d2 H1) as [H2 _].
  unfold exec at 1, mbind, M_bind. by rewrite schedule_direct_auth_returns.
Qed.

(** So does scheduling the secrets-wait timer. *)
Lemma schedule_secrets_timeout_twice helper w :
  reachable helper w →
  pending_timers OnSecretsTimeout
    (exec (_schedule_secrets_timeout;; _schedule_secrets_timeout) w) = 1%nat.
Proof.
  intros Hr. apply reachable_inv in Hr as [_ _ _ _ _ Hid Hs _ _].
  destruct_world w. fields. subst sti. unfold pending_timers.
  paths; fields.
  rewrite List.filter_app, (filter_nil_Forall (is_timer OnSecretsTimeout)); [done|].
  unfold drop_source. rewrite Forall_forall in *. intros x Hx.
  apply list_elem_of_In, filter_In in Hx as [Hx Hid].
  apply in_app_iff in Hx as [Hx|[<-|[]]].
  - by apply Hs, list_elem_of_In.
  - simpl in Hid. by rewrite Nat.eqb_refl in Hid.
Qed.

(** Arming the restart backoff does not: each time adds a timer. *)
Lemma schedule_restart_twice w :
  pending_timers DoRestart (exec (schedule_restart;; schedule_restart) w)
  = (pending_timers DoRestart w + 2)%nat.
Proof.
  destruct_world w. unfold pending_timers. paths; fields.
  rewrite !List.filter_app, !length_app. simpl. lia.
Qed.

(** C5. The claim that at most one instance of each named timer is ever
    pending does not hold for the restart backoff: [_on_openconnect_exit]
    arms it without cancelling the one that is pending.  Two transient
    exits less than a backoff apart, with a connect request in between,
    leave two restart timers attached while the plugin tracks the second. *)
Theorem restart_backoff_armed_twice :
  let w := run (init Scenario.helper) Scenario.two_transient_exits in
  pending_timers DoRestart w = 2%nat
  ∧ sources w = [(2%nat, Timeout 2000 DoRestart); (4%nat, Timeout 2000 DoRestart)]
  ∧ _restart_timeout_id w = Some 4%nat
  ∧ loop_running w = true.
Proof. vm_compute. repeat split. Qed.

(** ** C2: Disconnect while a reconnection is pending *)

(** What holds: the state is [Stopped] at once and the flag is set. *)
Lemma disconnect_while_pending_stops w e :
  _reconnection_pending w = true →
  let w' := step w (e, EvDisconnect) in
  external_state w' = Stopped
  ∧ _disconnect_requested w' = true
  ∧ trace w' = SigStateChanged Stopped :: trace w
  ∧ sources w' = sources w.
Proof.
  destruct_world w. fields. intros ->. unfold external_state. paths; fields. done.
Qed.

(** What holds: the restart callback sees the flag and does nothing. *)
Lemma do_restart_aborts_after_disconnect w e :
  _disconnect_requested w = true →
  exec (_do_restart e) w = set_restart_timeout_id None w.
Proof. destruct_world w. fields. intros ->. paths. done. Qed.

(** C2. The claim that every retry timer firing after such a Disconnect
    aborts without restarting the tunnel does not hold on the code:
    [_launch_direct_auth] looks at [_reconnection_pending] only.  Connect
    without a cookie, then Disconnect: the state is [Stopped] and the flag
    is set.  The direct-auth timer then fires, the agent returns a cookie,
    and the tunnel is started with the flag still set. *)
Theorem direct_auth_ignores_disconnect :
  let w0 := run (init Scenario.helper) Scenario.disconnect_while_pending in
  let w := run (init Scenario.helper) Scenario.timer_after_disconnect in
  external_state w0 = Stopped
  ∧ _disconnect_requested w0 = true
  ∧ launches w0 = []
  ∧ trace w = ActPopen (openconnect_cmd false Scenario.helper Scenario.gw "abc123") 100
              :: SigStateChanged Starting :: trace w0
  ∧ proc w = Some 100
  ∧ _disconnect_requested w = true.
Proof. vm_compute. repeat split. Qed.

(** ** C4: Disconnect *)

(** *** The id the plugin tracks names direct-auth timers only *)

Lemma names_none l : Forall (names_direct_auth None) l.
Proof. apply Forall_forall. intros s _ H. discriminate H. Qed.

Lemma names_fresh n l : Forall (fresh_below n) l → Forall (names_direct_auth (Some n)) l.
Proof.
  intros HF. eapply Forall_impl; [exact HF|].
  unfold fresh_below, names_direct_auth. intros s Hs [= ->]. lia.
Qed.

Ltac solve_names :=
  solve [ repeat first
    [ assumption
    | apply names_none
    | apply Forall_drop_source
    | apply Forall_list_filter
    | apply Forall_snoc;
        [|first [ reflexivity
                | intros ?; reflexivity
                | match goal with
                  | H : ∀ n, _ = Some n → _ |- _ =>
                      intros E; apply H in E; cbn in E; lia
                  end
                | intros ?; discriminate ]]
    | apply names_fresh; solve_fresh ] ].

Ltac solve_bound :=
  solve [ intros ? ?; first
    [ discriminate
    | match goal with
      | H : ∀ n, _ = Some n → _, E : _ = Some _ |- _ =>
          specialize (H _ E); cbn in *; lia
      end
    | match goal with E : Some _ = Some _ |- _ => injection E as <-; cbn; lia end ] ].

Ltac solve_timer_inv :=
  split; fields; first [ solve_bound | solve_names | solve_fresh ].

Lemma timer_inv_init helper : timer_inv (init helper).
Proof. split; cbn; done. Qed.

(** Every dispatch of the main loop preserves [timer_inv]. *)
Lemma timer_inv_step w i : timer_inv w → timer_inv (step w i).
Proof.
  destruct i as [e ev]. destruct_world w. intros [H1 H2 H3].
  fields.
  destruct ev.
  10: { cbv beta iota delta [step sources].
    destruct (List.find _ srcs) as [[i [d cb|pid]]|] eqn:Hf; [|by split..].
    destruct cb; paths; bool_facts; solve_timer_inv. }
  all: paths; bool_facts; solve_timer_inv.
Qed.

Lemma reachable_timer_inv helper w : reachable helper w → timer_inv w.
Proof. induction 1; [apply timer_inv_init | by apply timer_inv_step]. Qed.

(** Removing the tracked direct-auth timer removes no restart-backoff timer. *)
Lemma restart_timers_drop n l :
  Forall (names_direct_auth (Some n)) l →
  List.filter (is_timer DoRestart) (drop_source n l)
  = List.filter (is_timer DoRestart) l.
Proof.
  unfold drop_source. induction 1 as [|s l Hs _ IH]; [done|].
  cbn [List.filter]. destruct (Nat.eqb s.1 n) eqn:E; cbn [negb List.filter]; rewrite IH.
  - apply Nat.eqb_eq in E. subst n. specialize (Hs eq_refl).
    destruct s as [i [d [| |]|q]]; done.
  - done.
Qed.

(** C4 as worded fails, in both branches of [Disconnect].  While a
    reconnection is pending it cancels nothing: the direct-auth timer of a
    [Connect] without a cookie stays attached.  With no reconnection pending
    it cancels the direct-auth and the secrets-wait timer only: the
    restart-backoff timer armed by a transient exit stays attached. *)
Lemma disconnect_leaves_no_timer_fails :
  let pending :=
    run (init Scenario.helper)
      [(Scenario.quiet, EvConnect (Scenario.without_cookie Scenario.gw))] in
  let backoff := run (init Scenario.helper) Scenario.connect_then_transient_exit in
  (_reconnection_pending pending = true
   ∧ pending_timers LaunchDirectAuth (step pending (Scenario.quiet, EvDisconnect)) = 1%nat)
  ∧ (_reconnection_pending backoff = false
     ∧ pending_timers DoRestart (step backoff (Scenario.quiet, EvDisconnect)) = 1%nat)
  ∧ ¬ disconnect_leaves_no_timer.
Proof.
  split; [by vm_compute|]. split; [by vm_compute|].
  intros H.
  specialize (H Scenario.helper
                (run (init Scenario.helper) Scenario.connect_then_transient_exit)
                Scenario.quiet).
  destruct H as [_ H]; [apply reachable_run, reachable_init|].
  specialize (H DoRestart). vm_compute in H. discriminate H.
Qed.

(** C4, amended. From every reachable state a Disconnect request leaves
    the reported state [Stopped] and the disconnect-requested flag set.  It
    cancels no restart-backoff timer: those attached before are attached
    afterwards, and the restart callback, run in the state Disconnect leaves,
    only clears its timer id.  With no reconnection pending Disconnect leaves
    no direct-auth and no secrets-wait timer pending, clears the session and
    stops the main loop; with a reconnection pending it leaves the attached
    sources as they are. *)
Theorem disconnect_stops helper w e :
  reachable helper w →
  let w' := step w (e, EvDisconnect) in
  external_state w' = Stopped
  ∧ _disconnect_requested w' = true
  ∧ List.filter (is_timer DoRestart) (sources w')
    = List.filter (is_timer DoRestart) (sources w)
  ∧ (∀ e', exec (_do_restart e') w' = set_restart_timeout_id None w')
  ∧ (_reconnection_pending w = false →
       pending_timers LaunchDirectAuth w' = 0%nat
       ∧ pending_timers OnSecretsTimeout w' = 0%nat
       ∧ _direct_auth_timeout_id w' = None
       ∧ _secrets_timeout_id w' = None
       ∧ proc w' = None ∧ cookie w' = None ∧ gateway w' = None
       ∧ loop_running w' = false)
  ∧ (_reconnection_pending w = true →
       sources w' = sources w ∧ loop_running w' = loop_running w).
Proof.
  intros Hr.
  pose proof (reachable_timer_inv _ _ Hr) as [_ Hn _].
  apply reachable_inv in Hr as [_ _ _ _ _ Hid Hs Ht _].
  assert (Hd : _disconnect_requested (step w (e, EvDisconnect)) = true).
  { destruct_world w. paths; done. }
  cbv zeta. split; [|split; [exact Hd|split; [|split]]].
  - destruct_world w. unfold external_state. paths; done.
  - destruct_world w. fields. subst sti.
    paths; fields; first [done | by apply restart_timers_drop].
  - intros e'. by apply do_restart_aborts_after_disconnect.
  - clear Hd Hn. destruct_world w. fields. subst sti. unfold pending_timers.
    paths; fields; repeat split; try done.
    all: rewrite filter_nil_Forall; [done|].
    all: try change (Forall not_direct_auth) with
           (Forall (λ s, is_timer LaunchDirectAuth s = false)).
    all: first [ solve [auto with sources_db]
               | change (Forall (λ s, is_timer LaunchDirectAuth s = false))
                   with (Forall not_direct_auth); auto with sources_db ].
Qed.

Lemma disconnect_stops_witness :
  let w := run (init Scenario.helper) Scenario.two_transient_exits in
  let w' := step w (Scenario.quiet, EvDisconnect) in
  external_state w' = Stopped
  ∧ _disconnect_requested w' = true
  ∧ List.filter (is_timer DoRestart) (sources w')
    = List.filter (is_timer DoRestart) (sources w)
  ∧ (∀ e', exec (_do_restart e') w' = set_restart_timeout_id None w')
  ∧ (_reconnection_pending w = false →
       pending_timers LaunchDirectAuth w' = 0%nat
       ∧ pending_timers OnSecretsTimeout w' = 0%nat
       ∧ _direct_auth_timeout_id w' = None
       ∧ _secrets_timeout_id w' = None
       ∧ proc w' = None ∧ cookie w' = None ∧ gateway w' = None
       ∧ loop_running w' = false)
  ∧ (_reconnection_pending w = true →
       sources w' = sources w ∧ loop_running w' = loop_running w).
Proof.
  apply (disconnect_stops Scenario.helper).
  apply reachable_run, reachable_init.
Defined.

(** ** C3: a cookie the tunnel binary has rejected *)




Lemma vpn_data_insert (pc : gmap string setting) d s :
  vpn_data (<["vpn" := Setting d s]> pc) = default ∅ d.
Proof. unfold vpn_data. by rewrite lookup_insert_eq. Qed.

Lemma vpn_secrets_insert (pc : gmap string setting) d s :
  vpn_secrets (<["vpn" := Setting d (Some s)]> pc) = s.
Proof. unfold vpn_secrets. by rewrite lookup_insert_eq. Qed.



Lemma vpn_data_default (pc : gmap string setting) :
  default ∅ (data (default (Setting None None) (pc !! "vpn"))) = vpn_data pc.
Proof. unfold vpn_data. by destruct (pc !! "vpn"). Qed.

Lemma get_str_union (new old : gmap string string) k :
  truthy (get_str new k) = true → get_str (new ∪ old) k = get_str new k.
Proof.
  unfold get_str. destruct (new !! k) as [v|] eqn:Hk; [|done].
  intros _. by rewrite (lookup_union_Some_l _ _ _ _ Hk).
Qed.







(** * Further properties of the plugin *)

(** ** The session behind a running tunnel *)

Lemma has_scheme_normalize g : has_scheme (normalize_gateway g) = true.
Proof.
  unfold normalize_gateway, has_scheme.
  destruct (String.prefix "http://" g) eqn:H1; cbn [negb andb].
  - by rewrite H1.
  - destruct (String.prefix "https://" g) eqn:H2; cbn [negb].
    + by rewrite H1, H2.
    + apply orb_true_iff. right. by destruct g.
Qed.

Lemma count_filter_le {A} (f g : A → bool) (l : list A) :
  (length (List.filter f (List.filter g l)) ≤ length (List.filter f l))%nat.
Proof.
  induction l as [|x l IH]; [done|]. simpl.
  destruct (g x); simpl; destruct (f x); simpl; lia.
Qed.

Lemma count_snoc_other cb (l : list (nat * source)) x :
  is_timer cb x = false →
  length (List.filter (is_timer cb) (l ++ [x]))
  = length (List.filter (is_timer cb) l).
Proof. intros H. rewrite List.filter_app. simpl. rewrite H. by rewrite app_nil_r. Qed.

Ltac solve_count :=
  first
    [ assumption
    | apply Nat.eq_le_incl, one_direct_auth; [auto 10 with sources_db|reflexivity]
    | rewrite count_snoc_other by reflexivity; solve_count
    | etransitivity; [apply count_filter_le|]; solve_count ].

Ltac solve_launches :=
  repeat first
    [ assumption
    | apply Forall_cons; split;
      [ first [ exact I
              | eexists _, _, _; split; [reflexivity|split];
                first [ assumption | apply has_scheme_normalize
                      | match goal with H : ∀ g, _ → has_scheme g = true |- _ =>
                          by apply H end ] ] | ] ].

Ltac solve_session :=
  split; fields;
  [ reflexivity
  | first [ assumption
          | intros ? [= <-]; first [apply has_scheme_normalize | auto]
          | intros ? [=] ]
  | first [ assumption | done | intros _; cbn [truthy_opt]; assumption ]
  | solve_launches
  | unfold pending_timers in *; fields; solve_count ].

Lemma session_inv_init helper : session_inv helper (init helper).
Proof. split; cbn; try done. constructor. unfold pending_timers. simpl. lia. Qed.

Lemma session_inv_step helper w i :
  inv w → session_inv helper w → session_inv helper (step w i).
Proof.
  destruct i as [e ev]. destruct_world w.
  intros [_ _ _ _ _ _ _ H8 _] [Hh Hs Hc Hl Hn].
  fields. subst hs. unfold pending_timers in Hn. fields.
  destruct ev.
  10: { cbv beta iota delta [step sources].
    destruct (List.find _ srcs) as [[i [d cb|pid]]|] eqn:Hf;
      [|by split; fields..].
    apply find_source in Hf as [-> Hin].
    assert (Hlda : cb = LaunchDirectAuth → dat = Some id).
    { intros ->. rewrite Forall_forall in H8. by apply (H8 _ Hin). }
    destruct cb; [clear Hlda|specialize (Hlda eq_refl); subst dat|clear Hlda].
    all: paths; bool_facts; solve_session. }
  all: paths; bool_facts; solve_session.
Qed.

Lemma reachable_session_inv helper w : reachable helper w → session_inv helper w.
Proof.
  induction 1 as [|w i Hr IH]; [apply session_inv_init|].
  apply session_inv_step; [by eapply reachable_inv|done].
Qed.

Lemma has_scheme_truthy g : has_scheme g = true → truthy g = true.
Proof. by destruct g. Qed.

(** X1. While a tunnel process is tracked, the session behind it is
    complete: the gateway is known and carries a scheme, and the cookie is
    known and not empty. *)
Theorem tracked_tunnel_has_session helper w :
  reachable helper w →
  proc w ≠ None →
  ∃ g c, gateway w = Some g ∧ cookie w = Some c
         ∧ has_scheme g = true ∧ truthy g = true ∧ truthy c = true.
Proof.
  intros Hr Hp.
  destruct (reachable_inv _ _ Hr) as [Hg _ _ _ _ _ _ _ _].
  destruct (reachable_session_inv _ _ Hr) as [_ Hs Hc _ _].
  specialize (Hg Hp). specialize (Hc Hp).
  destruct (gateway w) as [g|] eqn:Eg; [|done].
  destruct (cookie w) as [c|] eqn:Ec; [|done].
  exists g, c. repeat split; auto.
Qed.

Lemma tracked_tunnel_has_session_witness :
  let w := run (init Scenario.helper) Scenario.tunnel_up_after_two_exits in
  ∃ g c, gateway w = Some g ∧ cookie w = Some c
         ∧ has_scheme g = true ∧ truthy g = true ∧ truthy c = true.
Proof.
  apply (tracked_tunnel_has_session Scenario.helper).
  - apply reachable_run, reachable_init.
  - vm_compute. discriminate.
Defined.

(** X2. Every launch of the tunnel binary, in every run, has the command
    line of [_start_openconnect] for the plugin's helper script, a gateway
    that carries a scheme and a cookie that is not empty. *)
Theorem every_launch_well_formed helper w cmd pid :
  reachable helper w →
  ActPopen cmd pid ∈ trace w →
  ∃ dtls g c, cmd = openconnect_cmd dtls helper g c
              ∧ truthy c = true ∧ has_scheme g = true.
Proof.
  intros Hr Hin.
  destruct (reachable_session_inv _ _ Hr) as [_ _ _ Hl _].
  rewrite Forall_forall in Hl. exact (Hl _ Hin).
Qed.

Lemma every_launch_well_formed_witness :
  ∃ dtls g c,
    openconnect_cmd false Scenario.helper Scenario.gw "abc123"
    = openconnect_cmd dtls Scenario.helper g c
    ∧ truthy c = true ∧ has_scheme g = true.
Proof.
  apply (every_launch_well_formed Scenario.helper
           (run (init Scenario.helper) Scenario.timer_after_disconnect) _ 100).
  - apply reachable_run, reachable_init.
  - vm_compute. apply list_elem_of_here.
Defined.

(** X3. In every reachable state at most one direct-auth timer is pending,
    and if one is pending it is the one [_direct_auth_timeout_id] names. *)
Theorem at_most_one_direct_auth_timer helper w :
  reachable helper w →
  (pending_timers LaunchDirectAuth w ≤ 1)%nat
  ∧ ∀ id delay, (id, Timeout delay LaunchDirectAuth) ∈ sources w →
                _direct_auth_timeout_id w = Some id.
Proof.
  intros Hr.
  destruct (reachable_session_inv _ _ Hr) as [_ _ _ _ Hn].
  destruct (reachable_inv _ _ Hr) as [_ _ _ _ _ _ _ Ht _].
  split; [done|]. intros id delay Hin.
  rewrite Forall_forall in Ht. by apply (Ht _ Hin).
Qed.

Lemma at_most_one_direct_auth_timer_witness :
  let w := run (init Scenario.helper) Scenario.disconnect_while_pending in
  (pending_timers LaunchDirectAuth w ≤ 1)%nat
  ∧ ∀ id delay, (id, Timeout delay LaunchDirectAuth) ∈ sources w →
                _direct_auth_timeout_id w = Some id.
Proof.
  apply (at_most_one_direct_auth_timer Scenario.helper).
  apply reachable_run, reachable_init.
Defined.

(** X4. From every reachable state, an honoured tunnel exit with a code
    other than 2 and no disconnect requested is always retried: [Starting]
    is reported, the restart backoff is armed and the session is kept; the
    exit never ends in [Stopped]. *)
Theorem transient_exit_always_retried helper w pid status :
  reachable helper w →
  proc w = Some pid →
  _disconnect_requested w = false →
  exit_code_of status ≠ 2 →
  let w' := exec (_on_openconnect_exit pid status) w in
  trace w' = SigStateChanged Starting :: trace w
  ∧ sources w' = sources w ++ [(next_source_id w, Timeout 2000 DoRestart)]
  ∧ _restart_timeout_id w' = Some (next_source_id w)
  ∧ proc w' = None
  ∧ cookie w' = cookie w ∧ gateway w' = gateway w.
Proof.
  intros Hr Hp Hd Hc.
  destruct (tracked_tunnel_has_session _ _ Hr) as (g & c & Hg & Hck & _ & Htg & Htc);
    [by rewrite Hp|].
  destruct_world w. fields. subst p dr gw ck.
  paths; z_facts; fields; cbn [truthy_opt] in *; try congruence; try lia; try done.
  all: rewrite Htg, Htc in *; discriminate.
Qed.

Lemma transient_exit_always_retried_witness :
  let w := run (init Scenario.helper)
             [(Scenario.answers 100 [],
               EvConnect (Scenario.description Scenario.gw "abc123"))] in
  let w' := exec (_on_openconnect_exit 100 15) w in
  trace w' = SigStateChanged Starting :: trace w
  ∧ sources w' = sources w ++ [(next_source_id w, Timeout 2000 DoRestart)]
  ∧ _restart_timeout_id w' = Some (next_source_id w)
  ∧ proc w' = None
  ∧ cookie w' = cookie w ∧ gateway w' = gateway w.
Proof.
  apply (transient_exit_always_retried Scenario.helper).
  - apply reachable_run, reachable_init.
  - vm_compute. reflexivity.
  - vm_compute. reflexivity.
  - vm_compute. discriminate.
Defined.

(** ** The browser agent returns a cookie *)

(** X5. When the direct-auth callback runs with a reconnection pending, at
    most 10 attempts counted, a known gateway, and the agent exits 0 with a
    cookie in its output, the cookie and the certificate digest are stored,
    the rejected cookie is forgotten, [Starting] is reported, the tunnel is
    launched with the stored gateway and the new cookie, and the pending
    flag and both counters are cleared. *)
Theorem agent_success_starts_tunnel w e url lines fresh digest pid :
  _reconnection_pending w = true →
  _reconnection_retry_count w + 1 ≤ _max_reconnection_retries →
  gateway w = Some url →
  agent e = AgentExit 0 lines →
  parse_auth_output lines None None = (Some fresh, digest) →
  truthy fresh = true →
  popen e = Spawned pid →
  let w' := exec (_launch_direct_auth e) w in
  trace w' = ActPopen (openconnect_cmd (dtls_enabled e) (helper_script w) url fresh) pid
             :: SigStateChanged Starting :: trace w
  ∧ proc w' = Some pid
  ∧ cookie w' = Some fresh ∧ servercert w' = digest ∧ gateway w' = Some url
  ∧ _last_failed_cookie w' = None
  ∧ _reconnection_pending w' = false
  ∧ _reconnection_retry_count w' = 0 ∧ _auth_failure_count w' = 0
  ∧ _direct_auth_timeout_id w' = None
  ∧ sources w' = sources w ++ [(next_source_id w, ChildWatch pid)].
Proof.
  destruct_world w. fields. intros -> Hn -> Ha Hparse Hck Hp.
  unfold_monad. rewrite Ha, Hparse.
  paths; unfold _max_reconnection_retries in *; z_facts; bool_facts; fields;
    cbn [truthy_opt] in *; try lia; try congruence.
  all: try (rewrite Hck in *; discriminate).
  all: injection Hp as ->; done.
Qed.

Lemma agent_success_starts_tunnel_witness :
  let w := run (init Scenario.helper)
             [(Scenario.quiet, EvConnect (Scenario.without_cookie Scenario.gw))] in
  let e := Scenario.answers 100 ["gateway"; "vpn.example.com"; "cookie"; "abc123"] in
  let w' := exec (_launch_direct_auth e) w in
  trace w' = ActPopen (openconnect_cmd (dtls_enabled e) (helper_script w)
                         Scenario.gw "abc123") 100
             :: SigStateChanged Starting :: trace w
  ∧ proc w' = Some 100
  ∧ cookie w' = Some "abc123" ∧ servercert w' = None ∧ gateway w' = Some Scenario.gw
  ∧ _last_failed_cookie w' = None
  ∧ _reconnection_pending w' = false
  ∧ _reconnection_retry_count w' = 0 ∧ _auth_failure_count w' = 0
  ∧ _direct_auth_timeout_id w' = None
  ∧ sources w' = sources w ++ [(next_source_id w, ChildWatch 100)].
Proof.
  apply (agent_success_starts_tunnel _ _ Scenario.gw
           ["gateway"; "vpn.example.com"; "cookie"; "abc123"]).
  all: vm_compute; first [reflexivity | discriminate].
Defined.

Ltac simpl_fields :=
  cbn [set_proc set_config set_ip4config set_gateway set_cookie set_servercert
       set_pending_connection set_disconnect_requested set_child_watch_id
       set_restart_timeout_id set_auth_failure_count set_reconnection_pending
       set_reconnection_retry_count set_last_failed_cookie
       set_direct_auth_timeout_id set_secrets_timeout_id set_sources
       set_next_source_id set_trace set_loop_running
       proc config ip4config gateway cookie servercert pending_connection
       _disconnect_requested _child_watch_id _restart_timeout_id
       _auth_failure_count _reconnection_pending _reconnection_retry_count
       _last_failed_cookie _direct_auth_timeout_id _secrets_timeout_id
       helper_script sources next_source_id trace loop_running] in *.

(** X6. A [Connect] without a cookie but with a gateway stores the request,
    reports [Starting] and schedules the browser agent with zero delay: the
    one direct-auth timer attached afterwards is the tracked one, and its
    delay is 0.  When that timer fires and the agent returns a cookie, the
    tunnel is launched with the normalized gateway of the request and that
    cookie. *)
Theorem connect_without_cookie_authenticates helper w e1 e2 c lines fresh digest pid :
  reachable helper w →
  truthy_opt (vpn_secrets c !! "cookie") = false →
  truthy (get_str (vpn_data c) "gateway") = true →
  agent e2 = AgentExit 0 lines →
  parse_auth_output lines None None = (Some fresh, digest) →
  truthy fresh = true →
  popen e2 = Spawned pid →
  let w1 := step w (e1, EvConnect c) in
  let w2 := step w1 (e2, EvTimer (next_source_id w)) in
  trace w1 = SigStateChanged Starting :: trace w
  ∧ pending_connection w1 = Some c
  ∧ _direct_auth_timeout_id w1 = Some (next_source_id w)
  ∧ List.filter (is_timer LaunchDirectAuth) (sources w1)
    = [(next_source_id w, Timeout 0 LaunchDirectAuth)]
  ∧ trace w2 = ActPopen (openconnect_cmd (dtls_enabled e2) helper
                           (normalize_gateway (get_str (vpn_data c) "gateway"))
                           fresh) pid
               :: SigStateChanged Starting :: trace w1
  ∧ proc w2 = Some pid
  ∧ cookie w2 = Some fresh
  ∧ _reconnection_pending w2 = false
  ∧ pending_timers LaunchDirectAuth w2 = 0%nat.
Proof.
  intros Hr Hnc Hg Ha Hparse Hf Hp.
  destruct (reachable_inv _ _ Hr) as [_ _ _ _ _ _ _ Ht Hfr].
  destruct (reachable_session_inv _ _ Hr) as [Hh _ _ _ _].
  clear Hr. destruct_world w. fields. subst hs.
  assert (Hw1 : ∃ l,
    step (World p cfg ip4 gw ck sc pc dr cw rt afc rp rrc lfc dat sti helper srcs nid
            tr lr) (e1, EvConnect c)
    = World p cfg ip4 (Some (normalize_gateway (get_str (vpn_data c) "gateway")))
        ck sc (Some c) dr cw rt afc true 0 lfc (Some nid) sti helper
        (l ++ [(nid, Timeout 0 LaunchDirectAuth)]) (S nid)
        (SigStateChanged Starting :: tr) lr
    ∧ Forall (fresh_below nid) l
    ∧ Forall not_direct_auth l).
  { cbv beta iota zeta delta [step dbus_call Connect]. rewrite Hnc, Hg. cbn [negb].
    destruct dat as [n|];
      [exists (drop_source n srcs)|exists srcs];
      (split; [|split; auto with sources_db]);
      paths; done. }
  destruct Hw1 as (l & Hw1 & Hfl & Hnl). cbv zeta. rewrite Hw1. clear Hw1.
  erewrite dispatch_last_timer; [|reflexivity|exact Hfl].
  cbn [run_callback]. simpl_fields.
  match goal with |- context [exec (_launch_direct_auth e2) ?w0] =>
    pose proof (agent_success_starts_tunnel w0 e2
                  (normalize_gateway (get_str (vpn_data c) "gateway"))
                  lines fresh digest pid eq_refl) as Hs;
    set (w2 := exec (_launch_direct_auth e2) w0) in *
  end.
  specialize (Hs ltac:(cbn; unfold _max_reconnection_retries; lia) eq_refl
                Ha Hparse Hf Hp).
  cbv zeta in Hs. simpl_fields.
  destruct Hs as (Hs1 & Hs2 & Hs3 & _ & _ & _ & Hs7 & _ & _ & _ & Hs11).
  unfold pending_timers. rewrite Hs1, Hs2, Hs3, Hs7, Hs11. clearbody w2.
  split; [reflexivity|]. split; [reflexivity|]. split; [reflexivity|].
  split; [by rewrite List.filter_app, (filter_nil_Forall _ l Hnl)|].
  split; [reflexivity|].
  split; [reflexivity|]. split; [reflexivity|]. split; [reflexivity|].
  rewrite count_snoc_other by reflexivity.
  by rewrite filter_nil_Forall.
Qed.

Lemma connect_without_cookie_authenticates_witness :
  let w := init Scenario.helper in
  let c := Scenario.without_cookie "vpn.example.com/emp" in
  let e2 := Scenario.answers 100 ["gateway"; "vpn.example.com"; "cookie"; "abc123"] in
  let w1 := step w (Scenario.quiet, EvConnect c) in
  let w2 := step w1 (e2, EvTimer (next_source_id w)) in
  trace w1 = SigStateChanged Starting :: trace w
  ∧ pending_connection w1 = Some c
  ∧ _direct_auth_timeout_id w1 = Some (next_source_id w)
  ∧ List.filter (is_timer LaunchDirectAuth) (sources w1)
    = [(next_source_id w, Timeout 0 LaunchDirectAuth)]
  ∧ trace w2 = ActPopen (openconnect_cmd (dtls_enabled e2) Scenario.helper
                           (normalize_gateway (get_str (vpn_data c) "gateway"))
                           "abc123") 100
               :: SigStateChanged Starting :: trace w1
  ∧ proc w2 = Some 100
  ∧ cookie w2 = Some "abc123"
  ∧ _reconnection_pending w2 = false
  ∧ pending_timers LaunchDirectAuth w2 = 0%nat.
Proof.
  apply (connect_without_cookie_authenticates Scenario.helper _ _ _ _
           ["gateway"; "vpn.example.com"; "cookie"; "abc123"] "abc123" None 100).
  - apply reachable_init.
  - vm_compute. reflexivity.
  - vm_compute. reflexivity.
  - reflexivity.
  - vm_compute. reflexivity.
  - vm_compute. reflexivity.
  - reflexivity.
Defined.

(** ** After a Disconnect *)

Lemma timers_without_watch cb pid (l : list (nat * source)) :
  List.filter (is_timer cb) (List.filter (λ s, negb (is_watch_of pid s)) l)
  = List.filter (is_timer cb) l.
Proof.
  induction l as [|[i [d c|q]] l IH]; [done|..].
  - cbn [List.filter is_watch_of snd negb]. destruct (is_timer cb _); by rewrite ?IH.
  - cbn [List.filter is_watch_of snd].
    destruct (q =? pid); cbn [List.filter negb is_timer snd]; exact IH.
Qed.

(** X7. Whatever the state a Disconnect is issued in, the tunnel exit that
    follows it restarts nothing: no signal is emitted, no process is launched
    and no timer is armed; and a restart-backoff timer that fires after the
    Disconnect launches nothing either. *)
Theorem nothing_restarts_after_disconnect w e e' :
  let w1 := step w (e, EvDisconnect) in
  (∀ pid status,
     let w2 := step w1 (e', EvChildExit pid status) in
     trace w2 = trace w1
     ∧ (∀ cb, pending_timers cb w2 = pending_timers cb w1)
     ∧ _disconnect_requested w2 = true)
  ∧ (∀ id delay,
       List.find (λ s : nat * source, Nat.eqb s.1 id) (sources w1)
       = Some (id, Timeout delay DoRestart) →
       let w2 := step w1 (e', EvTimer id) in
       trace w2 = trace w1 ∧ proc w2 = proc w1
       ∧ sources w2 = drop_source id (sources w1)).
Proof.
  assert (Hd : _disconnect_requested (step w (e, EvDisconnect)) = true).
  { destruct_world w. paths; done. }
  cbv zeta. generalize dependent (step w (e, EvDisconnect)).
  clear w. intros w Hd. destruct_world w. fields. subst dr. split.
  - intros pid status. unfold pending_timers.
    cbv beta iota zeta delta [step sources].
    destruct (existsb _ _); [|done].
    paths; fields; (split; [done|split; [|done]]); intros cb;
      by rewrite timers_without_watch.
  - intros id delay Hf.
    cbv beta iota zeta delta [step sources]. rewrite Hf. paths; done.
Qed.

(** ** Requests that cannot be carried out *)

(** X8. A [Connect] or [ConnectInteractive] whose description has no
    gateway is answered with [LaunchFailedError] and nothing else happens: no
    state is reported, no timer armed, no process launched; [Connect] leaves
    the plugin as it was, [ConnectInteractive] has merely stored the
    description as pending. *)
Theorem connect_without_gateway_rejected w e c :
  truthy (get_str (vpn_data c) "gateway") = false →
  step w (e, EvConnect c)
  = set_trace (ErrorReply (LaunchFailedError "No gateway specified in VPN configuration")
               :: trace w) w
  ∧ step w (e, EvConnectInteractive c)
    = set_trace (ErrorReply (LaunchFailedError "No gateway specified in VPN configuration")
                 :: trace w) (set_pending_connection (Some c) w).
Proof.
  intros Hg. destruct_world w.
  split; paths; rewrite ?Hg in *; cbn [negb] in *; try discriminate; done.
Qed.

Lemma connect_without_gateway_rejected_witness :
  let w := run (init Scenario.helper) Scenario.two_transient_exits in
  let c := Scenario.without_gateway "abc123" in
  step w (Scenario.quiet, EvConnect c)
  = set_trace (ErrorReply (LaunchFailedError "No gateway specified in VPN configuration")
               :: trace w) w
  ∧ step w (Scenario.quiet, EvConnectInteractive c)
    = set_trace (ErrorReply (LaunchFailedError "No gateway specified in VPN configuration")
                 :: trace w) (set_pending_connection (Some c) w).
Proof.
  apply connect_without_gateway_rejected. vm_compute. reflexivity.
Defined.

(** X9. When the tunnel binary cannot be launched ([Popen] raises), each of
    the three launch sites fails in its own way and none tracks a process or
    a child watch: [Connect] reports [Starting], then [Stopped], and answers
    [LaunchFailedError] with the reason; the restart callback reports
    [Stopped]; the direct-auth callback, below the retry bound, keeps the
    new cookie and schedules another attempt 3000 ms later. *)
Theorem launch_failure_handling w e msg :
  popen e = SpawnError msg →
  (∀ c,
     truthy (get_str (vpn_data c) "gateway") = true →
     truthy (get_str (vpn_secrets c) "cookie") = true →
     truthy_opt (_last_failed_cookie w)
     && eq_opt (get_str (vpn_secrets c) "cookie") (_last_failed_cookie w) = false →
     let w' := step w (e, EvConnect c) in
     trace w' = ErrorReply (LaunchFailedError ("Connection failed: " +:+ msg))
                :: SigStateChanged Stopped :: SigStateChanged Starting :: trace w
     ∧ proc w' = proc w ∧ sources w' = sources w)
  ∧ (_disconnect_requested w = false →
     truthy_opt (cookie w) = true → truthy_opt (gateway w) = true →
     let w' := exec (_do_restart e) w in
     trace w' = SigStateChanged Stopped :: trace w
     ∧ proc w' = proc w ∧ sources w' = sources w)
  ∧ (∀ url lines fresh digest,
     _reconnection_pending w = true →
     _reconnection_retry_count w + 1 < _max_reconnection_retries →
     gateway w = Some url →
     agent e = AgentExit 0 lines →
     parse_auth_output lines None None = (Some fresh, digest) →
     truthy fresh = true →
     let w' := exec (_launch_direct_auth e) w in
     trace w' = SigStateChanged Starting :: trace w
     ∧ cookie w' = Some fresh
     ∧ _reconnection_pending w' = true
     ∧ proc w' = proc w
     ∧ sources w' = sources w ++ [(next_source_id w, Timeout 3000 LaunchDirectAuth)]).
Proof.
  intros Hp. destruct_world w. fields. split; [|split].
  - intros c Hg Hc Hstale.
    pose proof (truthy_get_str (vpn_secrets c) "cookie") as Hc'. rewrite Hc in Hc'.
    cbv beta iota zeta delta [step dbus_call Connect _do_connect].
    rewrite <- Hc', Hg, Hc. cbn [negb].
    unfold_monad. rewrite Hstale, ?Hp. cbv beta iota.
    paths; fields; try congruence; done.
  - intros -> Hc Hg. unfold_monad. rewrite Hc, Hg, ?Hp. cbn [negb orb].
    paths; fields; try congruence; done.
  - intros url lines fresh digest -> Hn -> Ha Hparse Hf.
    unfold_monad. rewrite Ha, Hparse, ?Hp.
    paths; unfold _max_reconnection_retries, _reconnection_retry_interval in *;
      z_facts; bool_facts; fields; cbn [truthy_opt] in *; try lia; try congruence.
    all: try (rewrite Hf in *; discriminate).
    all: done.
Qed.

Lemma launch_failure_handling_witness :
  let w := run (init Scenario.helper)
             [(Scenario.answers 100 [],
               EvConnect (Scenario.description Scenario.gw "abc123"))] in
  let e := {| dtls_enabled := false; popen := SpawnError "No such file";
              agent := AgentTimeout; graceful := true |} in
  let w' := exec (_do_restart e) w in
  trace w' = SigStateChanged Stopped :: trace w
  ∧ proc w' = proc w ∧ sources w' = sources w.
Proof.
  intros w e.
  destruct (launch_failure_handling w e "No such file" eq_refl) as (_ & H & _).
  apply H; vm_compute; reflexivity.
Defined.

(** ** Secrets that complete a pending request *)

Lemma truthy_conn_of_gateway (pc : gmap string setting) :
  truthy (get_str (vpn_data pc) "gateway") = true → truthy_conn (Some pc) = true.
Proof.
  unfold vpn_data, truthy_conn. intros H.
  destruct (map_to_list pc) as [|x l] eqn:Hl; [|done].
  apply map_to_list_empty_iff in Hl. subst pc. by rewrite lookup_empty in H.
Qed.

(** X10. [NewSecrets] with a cookie that was not rejected last, while a
    request with a gateway is pending, launches the tunnel with the pending
    request's gateway and the new cookie (whatever cookie the pending request
    carried) and forgets the pending request. *)
Theorem new_secrets_completes_pending w e c pending pid :
  pending_connection w = Some pending →
  truthy (get_str (vpn_data pending) "gateway") = true →
  truthy (get_str (vpn_secrets c) "cookie") = true →
  truthy_opt (_last_failed_cookie w)
  && eq_opt (get_str (vpn_secrets c) "cookie") (_last_failed_cookie w) = false →
  popen e = Spawned pid →
  let w' := step w (e, EvNewSecrets c) in
  trace w' = ActPopen (openconnect_cmd (dtls_enabled e) (helper_script w)
                         (normalize_gateway (get_str (vpn_data pending) "gateway"))
                         (get_str (vpn_secrets c) "cookie")) pid
             :: SigStateChanged Starting :: trace w
  ∧ pending_connection w' = None
  ∧ proc w' = Some pid
  ∧ cookie w' = Some (get_str (vpn_secrets c) "cookie")
  ∧ _reconnection_pending w' = false ∧ _disconnect_requested w' = false.
Proof.
  intros Hpc Hg Hc Hstale Hp.
  pose proof (truthy_get_str (vpn_secrets c) "cookie") as Hc'. rewrite Hc in Hc'.
  pose proof (truthy_conn_of_gateway _ Hg) as Htc.
  destruct_world w. fields. subst pc.
  destruct sti; unfold_monad; rewrite <- Hc', Htc; cbn [negb]; cbv beta iota;
    rewrite !vpn_data_insert, !vpn_secrets_insert, vpn_data_default;
    rewrite !get_str_union by exact Hc; rewrite Hg, Hc; cbn [negb];
    cbv beta iota; rewrite Hstale, Hp; cbv beta iota;
    paths; fields; try congruence; done.
Qed.

Lemma new_secrets_completes_pending_witness :
  let w := run (init Scenario.helper)
             [(Scenario.quiet, EvConnect (Scenario.without_cookie Scenario.gw))] in
  let c := Scenario.without_gateway "abc123" in
  let e := Scenario.answers 100 [] in
  let w' := step w (e, EvNewSecrets c) in
  trace w' = ActPopen (openconnect_cmd (dtls_enabled e) (helper_script w)
                         (normalize_gateway
                            (get_str (vpn_data (Scenario.without_cookie Scenario.gw))
                               "gateway"))
                         (get_str (vpn_secrets c) "cookie")) 100
             :: SigStateChanged Starting :: trace w
  ∧ pending_connection w' = None
  ∧ proc w' = Some 100
  ∧ cookie w' = Some (get_str (vpn_secrets c) "cookie")
  ∧ _reconnection_pending w' = false ∧ _disconnect_requested w' = false.
Proof.
  apply new_secrets_completes_pending; vm_compute; reflexivity.
Defined.

(** ** The tunnel is up *)

(** X11. From every reachable state, [SetIp4Config] leaves no direct-auth
    timer pending and none tracked: once the tunnel has reported its
    configuration no browser re-authentication remains scheduled. *)
Theorem ip4_config_cancels_direct_auth helper w config :
  reachable helper w →
  let w' := exec (SetIp4Config config) w in
  pending_timers LaunchDirectAuth w' = 0%nat
  ∧ _direct_auth_timeout_id w' = None.
Proof.
  intros Hr. destruct (reachable_inv _ _ Hr) as [_ _ _ _ _ _ _ Ht _].
  destruct_world w. fields. unfold pending_timers.
  paths; fields; (split; [|done]).
  all: apply (f_equal (@length _) (y := [])), filter_nil_Forall.
  all: change (Forall (λ s, is_timer LaunchDirectAuth s = false))
         with (Forall not_direct_auth); auto 10 with sources_db.
Qed.

Lemma ip4_config_cancels_direct_auth_witness :
  let w := run (init Scenario.helper) Scenario.disconnect_while_pending in
  let w' := exec (SetIp4Config ∅) w in
  pending_timers LaunchDirectAuth w' = 0%nat
  ∧ _direct_auth_timeout_id w' = None.
Proof.
  apply (ip4_config_cancels_direct_auth Scenario.helper).
  apply reachable_run, reachable_init.
Defined.

(** ** Classifying the exit of the tunnel binary *)

(** X12. The exit code [_on_openconnect_exit] computes from a wait status
    is 2 exactly for a process that exited normally with status 2.  A process
    killed by a signal gets the negated signal number, a negative code: death
    by any signal, signal 2 included, is never taken for a rejected cookie. *)
Theorem credential_rejected_only_by_exit_status status :
  (exit_code_of status = 2 ↔ WIFEXITED status = true ∧ WEXITSTATUS status = 2)
  ∧ (WIFSIGNALED status = true →
       exit_code_of status = - WTERMSIG status ∧ exit_code_of status < 0).
Proof.
  unfold exit_code_of, WIFEXITED, WIFSIGNALED, WTERMSIG.
  assert (H0 : 0 ≤ Z.land status 127) by (apply Z.land_nonneg; lia).
  destruct (Z.land status 127 =? 0) eqn:E0; cbn [negb andb].
  - split; [tauto|done].
  - apply Z.eqb_neq in E0.
    destruct (Z.land status 127 =? 127) eqn:E1; cbn [negb].
    + split; [|done]. split; [|intros [? _]; done].
      intros ->. apply Z.eqb_eq in E1. done.
    + split; [|intros _; split; [done|lia]].
      split; [lia|intros [? _]; done].
Qed.

(** ** The output of the browser agent *)

Lemma parse_auth_output_sound n : ∀ lines ck gc v,
  (length lines ≤ n)%nat →
  (parse_auth_output lines ck gc).1 = Some v →
  ck = Some v
  ∨ ∃ i, lines !! i = Some "cookie" ∧ lines !! S i = Some v.
Proof.
  induction n as [|n IH]; intros lines ck gc v Hlen.
  - destruct lines; [|simpl in Hlen; lia]. simpl. auto.
  - destruct lines as [|k [|x rest]]; simpl; auto.
    simpl in Hlen.
    destruct (String.eqb_spec k "cookie") as [->|Hk].
    + intros H. apply IH in H as [[= ->]|(i & H1 & H2)]; [| |lia].
      * right. by exists 0%nat.
      * right. by exists (S (S i)).
    + destruct (String.eqb k "gwcert").
      * intros H. apply IH in H as [?|(i & H1 & H2)]; [auto| |lia].
        right. by exists (S (S i)).
      * intros H. apply (IH (x :: rest)) in H as [?|(i & H1 & H2)];
          [auto| |simpl; lia].
        right. by exists (S i).
Qed.

(** X13. The cookie the direct-auth callback reads from the agent's output
    is always the line that follows a ["cookie"] line; an output without a
    ["cookie"] line yields no cookie and counts as a failed attempt. *)
Theorem auth_output_cookie_follows_key lines :
  (∀ v, (parse_auth_output lines None None).1 = Some v →
        ∃ i, lines !! i = Some "cookie" ∧ lines !! S i = Some v)
  ∧ ("cookie" ∉ lines →
       (parse_auth_output lines None None).1 = None
       ∧ agent_failed (AgentExit 0 lines) = true).
Proof.
  assert (Hs : ∀ v, (parse_auth_output lines None None).1 = Some v →
                    ∃ i, lines !! i = Some "cookie" ∧ lines !! S i = Some v).
  { intros v H. by apply (parse_auth_output_sound (length lines)) in H as [?|?]. }
  split; [exact Hs|]. intros Hno.
  assert (Hn : (parse_auth_output lines None None).1 = None).
  { destruct (parse_auth_output lines None None).1 as [v|] eqn:E; [|done].
    destruct (Hs v eq_refl) as (i & Hi & _).
    exfalso. apply Hno. by eapply list_elem_of_lookup_2. }
  split; [done|]. cbn [agent_failed]. by rewrite Hn.
Qed.

(** *** From the standard output of the agent back to its result *)

Lemma split_lines_one s : one_line s = true → split_lines s = [s].
Proof.
  induction s as [|a s IH]; [done|]. cbn [one_line split_lines].
  destruct (Ascii.eqb a _); [done|]. cbn [negb andb]. intros H. by rewrite (IH H).
Qed.

Lemma split_lines_app s t :
  one_line s = true → split_lines (s +:+ newline +:+ t) = s :: split_lines t.
Proof.
  induction s as [|a s IH]; [done|]. cbn [one_line].
  change (String a s +:+ newline +:+ t) with (String a (s +:+ newline +:+ t)).
  cbn [split_lines]. destruct (Ascii.eqb a _); [done|]. cbn [negb andb].
  intros H. by rewrite (IH H).
Qed.

Lemma append_not_empty s t : t ≠ "" → s +:+ t ≠ "".
Proof. by destruct s. Qed.

(** [rstrip] stops at the last character that is not white space. *)
Lemma rstrip_app s t : rstrip t ≠ "" → rstrip (s +:+ t) = s +:+ rstrip t.
Proof.
  intros Ht. induction s as [|a s IH]; [done|].
  change (String a s +:+ t) with (String a (s +:+ t)). cbn [rstrip]. rewrite IH.
  change (String a s +:+ rstrip t) with (String a (s +:+ rstrip t)).
  pose proof (append_not_empty s _ Ht) as Hn.
  by destruct (s +:+ rstrip t).
Qed.

Lemma rstrip_app_blank s t : rstrip t = "" → rstrip (s +:+ t) = rstrip s.
Proof.
  intros Ht. induction s as [|a s IH]; [done|].
  change (String a s +:+ t) with (String a (s +:+ t)). cbn [rstrip]. by rewrite IH.
Qed.

Lemma truthy_not_empty s : truthy s = true → s ≠ "".
Proof. by destruct s. Qed.

Lemma append_assoc (s t u : string) : (s +:+ t) +:+ u = s +:+ t +:+ u.
Proof.
  induction s as [|a s IH]; [done|].
  change ((String a s +:+ t) +:+ u) with (String a ((s +:+ t) +:+ u)).
  by rewrite IH.
Qed.

Lemma append_empty (s : string) : s +:+ "" = s.
Proof.
  induction s as [|a s IH]; [done|].
  change (String a s +:+ "") with (String a (s +:+ "")). by rewrite IH.
Qed.

(** The closing line feeds of the output are stripped, and nothing else is,
    when the last value printed does not end in white space. *)
Lemma rstrip_output (s v : string) :
  rstrip v = v → v ≠ "" → rstrip (s +:+ v +:+ newline +:+ newline) = s +:+ v.
Proof.
  intros Hv Hn.
  assert (Hr : rstrip (v +:+ newline +:+ newline) = v).
  { by rewrite rstrip_app_blank. }
  rewrite rstrip_app; rewrite Hr; done.
Qed.

(** X14. What [output_nm_format] writes is read back by the direct-auth
    callback: after [strip()] and [split] the lines are the keys and values
    in order, the parsing loop returns the cookie as it was written and the
    certificate digest if there was one, and the attempt does not count as
    failed.  This needs values without a line feed, a cookie that is not
    empty, a cookie and a digest that do not end in white space, and a
    gateway host that is not itself called ["cookie"] or ["gwcert"]. *)
Theorem auth_output_round_trip gateway cookie gwcert :
  one_line gateway = true → one_line cookie = true → one_line gwcert = true →
  gateway ≠ "cookie" → gateway ≠ "gwcert" →
  truthy cookie = true →
  rstrip cookie = cookie → rstrip gwcert = gwcert →
  let lines := stdout_lines (output_nm_format gateway cookie gwcert) in
  lines = ["gateway"; gateway; "cookie"; cookie]
          ++ (if truthy gwcert then ["gwcert"; gwcert] else [])
  ∧ parse_auth_output lines None None
    = (Some cookie, if truthy gwcert then Some gwcert else None)
  ∧ agent_failed (AgentExit 0 lines) = false.
Proof.
  intros Hg Hc Hw H1 H2 Hck Hrc Hrw.
  assert (Hl : stdout_lines (output_nm_format gateway cookie gwcert)
               = ["gateway"; gateway; "cookie"; cookie]
                 ++ (if truthy gwcert then ["gwcert"; gwcert] else [])).
  { unfold stdout_lines, output_nm_format, print, strip.
    change (lstrip ?s) with s.
    destruct (truthy gwcert) eqn:Hwt.
    - replace (((("gateway" +:+ newline +:+ gateway) +:+ newline) +:+
                (("cookie" +:+ newline +:+ cookie) +:+ newline) +:+
                (("gwcert" +:+ newline +:+ gwcert) +:+ newline) +:+ "" +:+ newline))
        with (("gateway" +:+ newline +:+ gateway +:+ newline +:+ "cookie" +:+ newline
               +:+ cookie +:+ newline +:+ "gwcert" +:+ newline)
              +:+ gwcert +:+ newline +:+ newline)
        by (by rewrite !append_assoc).
      rewrite rstrip_output by (by try apply truthy_not_empty).
      rewrite !append_assoc.
      rewrite (split_lines_app "gateway") by done.
      rewrite (split_lines_app gateway) by done.
      rewrite (split_lines_app "cookie") by done.
      rewrite (split_lines_app cookie) by done.
      rewrite (split_lines_app "gwcert") by done.
      by rewrite split_lines_one.
    - replace (((("gateway" +:+ newline +:+ gateway) +:+ newline) +:+
                (("cookie" +:+ newline +:+ cookie) +:+ newline) +:+ "" +:+ "" +:+ newline))
        with (("gateway" +:+ newline +:+ gateway +:+ newline +:+ "cookie" +:+ newline)
              +:+ cookie +:+ newline +:+ newline)
        by (by rewrite !append_assoc).
      rewrite rstrip_output by (by try apply truthy_not_empty).
      rewrite !append_assoc.
      rewrite (split_lines_app "gateway") by done.
      rewrite (split_lines_app gateway) by done.
      rewrite (split_lines_app "cookie") by done.
      by rewrite split_lines_one. }
  cbv zeta. rewrite Hl. split; [done|].
  apply String.eqb_neq in H1, H2.
  assert (Hp : parse_auth_output
                 (["gateway"; gateway; "cookie"; cookie]
                  ++ (if truthy gwcert then ["gwcert"; gwcert] else [])) None None
               = (Some cookie, if truthy gwcert then Some gwcert else None)).
  { destruct (truthy gwcert); simpl; by rewrite H1, H2. }
  split; [exact Hp|]. cbn [agent_failed]. rewrite Hp. cbn. by rewrite Hck.
Qed.

Lemma auth_output_round_trip_witness :
  let lines := stdout_lines (output_nm_format "vpn.example.com" "abc123" "sha256:0a") in
  lines = ["gateway"; "vpn.example.com"; "cookie"; "abc123"]
          ++ (if truthy "sha256:0a" then ["gwcert"; "sha256:0a"] else [])
  ∧ parse_auth_output lines None None
    = (Some "abc123", if truthy "sha256:0a" then Some "sha256:0a" else None)
  ∧ agent_failed (AgentExit 0 lines) = false.
Proof. apply auth_output_round_trip; first [reflexivity | discriminate]. Defined.

(** Without those provisos the round trip fails: a gateway host called
    ["cookie"] is read as the key and the key as the cookie; an empty cookie
    without a digest is stripped together with its line, so that no cookie is
    read; a cookie that ends in a blank loses it. *)
Example auth_output_provisos :
  (parse_auth_output (stdout_lines (output_nm_format "cookie" "abc123" "")) None None).1
  = Some "cookie"
  ∧ (parse_auth_output (stdout_lines (output_nm_format "vpn.example.com" "" "")) None None).1
    = None
  ∧ (parse_auth_output (stdout_lines (output_nm_format "vpn.example.com" "abc123 " ""))
       None None).1
    = Some "abc123".
Proof. by vm_compute. Qed.

(** ** The gateway scheme *)

(** X15. [normalize_gateway] always yields a gateway with a scheme, leaves
    a gateway that has one untouched, puts [https://] in front of any other,
    and applying it twice is the same as applying it once. *)
Theorem normalize_gateway_idempotent g :
  has_scheme (normalize_gateway g) = true
  ∧ normalize_gateway (normalize_gateway g) = normalize_gateway g
  ∧ (has_scheme g = true → normalize_gateway g = g)
  ∧ (has_scheme g = false → normalize_gateway g = "https://" +:+ g).
Proof.
  assert (Hfix : ∀ x, has_scheme x = true → normalize_gateway x = x).
  { intros x. unfold has_scheme, normalize_gateway.
    by destruct (String.prefix "http://" x), (String.prefix "https://" x). }
  split; [apply has_scheme_normalize|].
  split; [apply Hfix, has_scheme_normalize|].
  split; [apply Hfix|].
  unfold has_scheme, normalize_gateway.
  by destruct (String.prefix "http://" g), (String.prefix "https://" g).
Qed.

(** ** The configuration file *)

Lemma dtls_skip before rest :
  Forall (λ l, sets_dtls l = false) before →
  dtls_from_lines (before ++ rest) = dtls_from_lines rest.
Proof.
  induction 1 as [|l before Hl _ IH]; [done|].
  simpl. unfold sets_dtls in Hl. by rewrite Hl.
Qed.

(** X16. [is_dtls_enabled] answers from the first line that sets
    [ENABLE_DTLS]: the lines before it that do not set it are skipped and the
    lines after it are never looked at, so a later setting cannot override
    it.  Without such a line, without a file or with an unreadable file the
    answer is [False]. *)
Theorem first_dtls_line_decides before line after :
  Forall (λ l, sets_dtls l = false) before →
  sets_dtls line = true →
  is_dtls_enabled (ConfigLines (before ++ line :: after))
  = is_dtls_enabled (ConfigLines [line])
  ∧ is_dtls_enabled (ConfigLines before) = false
  ∧ is_dtls_enabled NoConfigFile = false
  ∧ is_dtls_enabled Unreadable = false.
Proof.
  intros Hb Hl. cbn [is_dtls_enabled]. split; [|split; [|done]].
  - rewrite dtls_skip by done. simpl. unfold sets_dtls in Hl. by rewrite Hl.
  - rewrite <- (app_nil_r before). by rewrite dtls_skip.
Qed.

Lemma first_dtls_line_decides_witness :
  let before := ["# written by NixOS"; ""; "LOG_LEVEL=info"] in
  let line := "  ENABLE_DTLS=false" in
  let after := ["ENABLE_DTLS=true"] in
  is_dtls_enabled (ConfigLines (before ++ line :: after))
  = is_dtls_enabled (ConfigLines [line])
  ∧ is_dtls_enabled (ConfigLines before) = false
  ∧ is_dtls_enabled NoConfigFile = false
  ∧ is_dtls_enabled Unreadable = false.
Proof.
  apply first_dtls_line_decides.
  - repeat constructor.
  - vm_compute. reflexivity.
Defined.

Lemma rstrip_cons a s :
  isspace a = false → rstrip (String a s) = String a (rstrip s).
Proof. intros H. simpl. rewrite H. by destruct (rstrip s). Qed.

Lemma rstrip_idempotent s : rstrip (rstrip s) = rstrip s.
Proof.
  induction s as [|a s IH]; [done|]. simpl.
  destruct (rstrip s) as [|b r] eqn:E.
  - destruct (isspace a) eqn:Ha; [done|]. simpl. by rewrite Ha.
  - change (rstrip (String a (String b r)))
      with (match rstrip (String b r) with
            | EmptyString => if isspace a then EmptyString else String a EmptyString
            | r' => String a r'
            end).
    by rewrite IH.
Qed.

Lemma lstrip_rstrip s : lstrip (rstrip s) = rstrip (lstrip s).
Proof.
  induction s as [|a s IH]; [done|].
  destruct (isspace a) eqn:Ha.
  - cbn [lstrip]. rewrite Ha, <- IH. cbn [rstrip].
    destruct (rstrip s) as [|b r]; rewrite ?Ha; [done|].
    cbn [lstrip]. by rewrite Ha.
  - rewrite rstrip_cons by done. cbn [lstrip]. rewrite Ha.
    by rewrite rstrip_cons.
Qed.

Lemma strip_rstrip s : strip (rstrip s) = strip s.
Proof. unfold strip. by rewrite lstrip_rstrip, rstrip_idempotent. Qed.

(** X17. A file whose only setting is the line [ENABLE_DTLS=value] enables
    DTLS exactly when [value], with the whitespace around it removed and put
    in lower case, is [true]. *)
Theorem dtls_value_semantics value :
  is_dtls_enabled (ConfigLines ["ENABLE_DTLS=" +:+ value])
  = String.eqb (lower (strip value)) "true".
Proof.
  cbn [is_dtls_enabled dtls_from_lines].
  assert (Hs : strip ("ENABLE_DTLS=" +:+ value) = "ENABLE_DTLS=" +:+ rstrip value).
  { unfold strip.
    change (lstrip ("ENABLE_DTLS=" +:+ value)) with ("ENABLE_DTLS=" +:+ value).
    cbv beta iota delta [String.append].
    repeat (rewrite rstrip_cons by reflexivity). reflexivity. }
  rewrite Hs.
  replace (String.prefix "ENABLE_DTLS=" ("ENABLE_DTLS=" +:+ rstrip value)) with true
    by (by destruct (rstrip value)).
  replace (after_equals ("ENABLE_DTLS=" +:+ rstrip value)) with (Some (rstrip value))
    by reflexivity.
  by rewrite strip_rstrip.
Qed.

Example dtls_values :
  map (λ v, is_dtls_enabled (ConfigLines ["ENABLE_DTLS=" +:+ v]))
      ["true"; "TRUE"; " True  "; "false"; "1"; "yes"; ""; "true # on"]
  = [true; true; true; false; false; false; false; false].
Proof. reflexivity. Qed.

(** ** Error replies *)

(** X18. The only error a caller of the plugin's D-Bus methods is ever
    answered with is [LaunchFailedError]: whatever goes wrong inside
    [_do_connect] is turned into one, and no other method lets an exception
    escape. *)
Theorem only_launch_failed_is_replied helper w ex :
  reachable helper w →
  ErrorReply ex ∈ trace w →
  ∃ msg, ex = LaunchFailedError msg.
Proof.
  intros Hr. revert ex.
  induction Hr as [|w [e ev] Hr IH]; intros ex Hin.
  - cbn in Hin. by apply elem_of_nil in Hin.
  - revert Hin. destruct_world w. fields.
    destruct ev.
    10: { cbv beta iota delta [step sources].
      destruct (List.find _ srcs) as [[i [d cb|pid]]|] eqn:Hf; [|by auto..].
      destruct cb; paths; fields; intros Hin;
        repeat (apply elem_of_cons in Hin as [Hin|Hin]; [discriminate Hin|]);
        by apply IH. }
    all: paths; fields; intros Hin;
      repeat (apply elem_of_cons in Hin as [Hin|Hin];
              [first [discriminate Hin | injection Hin as ->; by eexists]|]);
      by apply IH.
Qed.

Lemma only_launch_failed_is_replied_witness :
  ∃ msg, LaunchFailedError "No gateway specified in VPN configuration"
         = LaunchFailedError msg.
Proof.
  apply (only_launch_failed_is_replied Scenario.helper
           (run (init Scenario.helper)
              [(Scenario.quiet, EvConnect (Scenario.without_gateway "abc123"))])).
  - apply reachable_run, reachable_init.
  - vm_compute. apply list_elem_of_here.
Defined.

(** ** Finding the graphical session *)

Lemma find_graphical_skip before rest :
  Forall (λ s, is_graphical (session_props s) = false) before →
  find_graphical_session (before ++ rest) = find_graphical_session rest.
Proof.
  induction 1 as [|s before Hs _ IH]; [done|]. simpl. by rewrite Hs.
Qed.

(** X19. The direct-auth callback runs the agent in the first listed
    session whose type is [x11] or [wayland]: sessions before it are skipped
    and sessions after it are never looked at, also when that first session
    has no user name; with no such session no user is found. *)
Theorem first_graphical_session_decides before session after :
  Forall (λ s, is_graphical (session_props s) = false) before →
  is_graphical (session_props session) = true →
  find_graphical_session (before ++ session :: after)
  = find_graphical_session [session]
  ∧ (find_graphical_session (before ++ session :: after)).1
    = session_props session !! "Name"
  ∧ (find_graphical_session before).1 = None.
Proof.
  intros Hb Hs. rewrite find_graphical_skip by done.
  simpl. rewrite Hs. split; [done|]. split; [done|].
  rewrite <- (app_nil_r before). by rewrite find_graphical_skip.
Qed.

Lemma first_graphical_session_decides_witness :
  let before := [["Name=gdm"; "Type=tty"; "Display="]] in
  let session := ["Type=wayland"; "Display="] in
  let after := [["Name=alice"; "Type=x11"; "Display=:1"]] in
  find_graphical_session (before ++ session :: after)
  = find_graphical_session [session]
  ∧ (find_graphical_session (before ++ session :: after)).1
    = session_props session !! "Name"
  ∧ (find_graphical_session before).1 = None.
Proof.
  apply first_graphical_session_decides.
  - repeat constructor.
  - vm_compute. reflexivity.
Defined.

(** X20. The display the session loop ends with is never empty.  With no
    graphical session it is [":0"] (and no user is found); otherwise it is
    the [Display] property of the first graphical session, or [":0"] when
    that property is missing or empty. *)
Theorem session_display_never_empty sessions :
  truthy (find_graphical_session sessions).2 = true
  ∧ (Forall (λ s, is_graphical (session_props s) = false) sessions →
       find_graphical_session sessions = (None, ":0"))
  ∧ (∀ before session after,
       sessions = before ++ session :: after →
       Forall (λ s, is_graphical (session_props s) = false) before →
       is_graphical (session_props session) = true →
       (session_props session !! "Display" = None
        ∨ session_props session !! "Display" = Some "" →
        (find_graphical_session sessions).2 = ":0")
       ∧ (∀ display, session_props session !! "Display" = Some display →
                     truthy display = true →
                     (find_graphical_session sessions).2 = display)).
Proof.
  split; [|split].
  - induction sessions as [|lines rest IH]; [done|]. simpl.
    destruct (is_graphical _); [|exact IH]. cbn [snd].
    destruct (session_props lines !! "Display") as [d|]; [|done].
    by destruct (truthy d) eqn:E.
  - intros Hn. rewrite <- (app_nil_r sessions). by rewrite find_graphical_skip.
  - intros before session after -> Hb Hs. rewrite find_graphical_skip by done.
    simpl. rewrite Hs. cbn [snd]. split.
    + by intros [->| ->].
    + intros display -> Hd. by rewrite Hd.
Qed.

Lemma session_display_never_empty_witness :
  let sessions := [["Name=gdm"; "Type=tty"; "Display=:7"];
                   ["Name=alice"; "Type=wayland"; "Display="];
                   ["Name=bob"; "Type=x11"; "Display=:1"]] in
  (find_graphical_session sessions).2 = ":0"
  ∧ (find_graphical_session (tail (tail sessions))).2 = ":1".
Proof.
  intros sessions. split.
  - destruct (session_display_never_empty sessions) as (_ & _ & H).
    destruct (H [["Name=gdm"; "Type=tty"; "Display=:7"]]
                ["Name=alice"; "Type=wayland"; "Display="]
                [["Name=bob"; "Type=x11"; "Display=:1"]]) as [H0 _].
    + reflexivity.
    + repeat constructor.
    + vm_compute. reflexivity.
    + apply H0. right. vm_compute. reflexivity.
  - destruct (session_display_never_empty (tail (tail sessions))) as (_ & _ & H).
    destruct (H [] ["Name=bob"; "Type=x11"; "Display=:1"] []) as [_ H1].
    + reflexivity.
    + constructor.
    + vm_compute. reflexivity.
    + apply (H1 ":1"); vm_compute; reflexivity.
Defined.

Lemma after_equals_key k v :
  after_equals k = None → after_equals (k +:+ "=" +:+ v) = Some v.
Proof.
  induction k as [|a k IH]; [done|]. cbn [after_equals String.append].
  simpl. destruct (Ascii.eqb a _); [done|]. exact IH.
Qed.

Lemma before_equals_key k v :
  after_equals k = None → before_equals (k +:+ "=" +:+ v) = k.
Proof.
  induction k as [|a k IH]; [done|]. simpl.
  destruct (Ascii.eqb a _); [done|]. intros H. by rewrite IH.
Qed.

(** X21. In the property dictionary of a session the last line that sets a
    key wins: after any lines, a line [key=value] (the key without ['='])
    makes the lookup of [key] return [value]; a line without ['='] changes
    nothing. *)
Theorem session_props_last_line_wins lines key value other :
  after_equals key = None →
  session_props (lines ++ [key +:+ "=" +:+ value]) !! key = Some value
  ∧ (after_equals other = None →
     session_props (lines ++ [other]) = session_props lines).
Proof.
  intros Hk. unfold session_props. rewrite !fold_left_app. cbn [fold_left].
  split.
  - by rewrite after_equals_key, before_equals_key, lookup_insert_eq.
  - by intros ->.
Qed.

Lemma session_props_last_line_wins_witness :
  session_props (["Name=gdm"; "Type=tty"] ++ ["Name" +:+ "=" +:+ "alice"]) !! "Name"
  = Some "alice"
  ∧ (after_equals "" = None →
     session_props (["Name=gdm"; "Type=tty"] ++ [""])
     = session_props ["Name=gdm"; "Type=tty"]).
Proof. apply session_props_last_line_wins. reflexivity. Defined.
